(** * csvtojson.py: exchange-rate CSV to JSON converter

    A shallow embedding of [src/csvtojson.py] and of the parts of the
    Python standard library it calls, followed by the properties of the
    conversion contract.

    Conventions of the model.
    - A Python [str] is a [string]; one [ascii] is one character, so the
      model covers ASCII text (the non-ASCII letters of the script's own
      French messages are kept as their UTF-8 bytes).
    - A Python [float] is an IEEE-754 binary64 value, [spec_float].
    - Exceptions are values of [exn]; library functions that may raise
      return a [result], effectful code lives in the monad [M] over a
      [world] made of the file system, [sys.argv] and standard output. *)

From Stdlib Require Import ZArith NArith Ascii String List Bool Lia.
From Stdlib Require Import Floats.SpecFloat.
From stdpp Require Import base gmap strings pretty.
Import ListNotations.

Local Open Scope string_scope.
Local Open Scope list_scope.

(** ** Characters and strings *)

Definition LF : ascii := "010"%char.
Definition CR : ascii := "013"%char.
Definition DQUOTE : ascii := "034"%char.
Definition SQUOTE : ascii := "039"%char.
Definition BACKSLASH : ascii := "092"%char.

Definition is_digit (c : ascii) : bool :=
  (("0" <=? c) && (c <=? "9"))%char.

Definition digit_value (c : ascii) : N := (N_of_ascii c - 48)%N.

(** [Py_ISSPACE]: the six ASCII white-space characters. *)
Definition Py_ISSPACE (c : ascii) : bool :=
  let n := N_of_ascii c in ((9 <=? n) && (n <=? 13) || (n =? 32))%N.

(** ASCII lower-casing, for case-insensitive keyword matches. *)
Definition to_lower (c : ascii) : ascii :=
  if (("A" <=? c) && (c <=? "Z"))%char
  then ascii_of_N (N_of_ascii c + 32) else c.

Fixpoint string_rev_onto (s acc : string) : string :=
  match s with
  | "" => acc
  | String c s' => string_rev_onto s' (String c acc)
  end.

Definition string_rev (s : string) : string := string_rev_onto s "".

Fixpoint string_forallb (p : ascii -> bool) (s : string) : bool :=
  match s with
  | "" => true
  | String c s' => p c && string_forallb p s'
  end.

Fixpoint string_existsb (p : ascii -> bool) (s : string) : bool :=
  match s with
  | "" => false
  | String c s' => p c || string_existsb p s'
  end.

(** [s] occurs inside [t]. *)
Definition substring_of (s t : string) : Prop :=
  exists pre post, t = pre +:+ s +:+ post.

(** Fixed-width decimal rendering, zero padded ([%04d], [%02d]); exact for
    [n < 10 ^ width]. *)
Fixpoint zero_padded (width : nat) (n : N) : string :=
  match width with
  | O => ""
  | S w => zero_padded w (n / 10) +:+ String (ascii_of_N (48 + n mod 10)) ""
  end.

(** The text of some lines, each closed by [eol] except, when
    [final_newline] is off, the last. *)
Fixpoint join_lines (eol : string) (final_newline : bool) (lines : list string) : string :=
  match lines with
  | [] => ""
  | [line] => if final_newline then line +:+ eol else line
  | line :: rest => line +:+ eol +:+ join_lines eol final_newline rest
  end.

Definition hex_digit (n : N) : ascii :=
  if (n <? 10)%N then ascii_of_N (48 + n) else ascii_of_N (87 + n).

(** [repr] of a [str] (ASCII case of CPython's [unicode_repr]): single
    quotes unless the text holds a single quote and no double quote;
    the quote, the backslash and the control characters are escaped. *)
Definition repr_char (quote : ascii) (c : ascii) : string :=
  if ((c =? quote) || (c =? BACKSLASH))%char then String BACKSLASH (String c "")
  else if (c =? "009")%char then String BACKSLASH "t"
  else if (c =? LF)%char then String BACKSLASH "n"
  else if (c =? CR)%char then String BACKSLASH "r"
  else let n := N_of_ascii c in
       if ((n <? 32) || (n =? 127))%N
       then String BACKSLASH (String "x" (String (hex_digit (n / 16))
                                            (String (hex_digit (n mod 16)) "")))
       else String c "".

Fixpoint repr_body (quote : ascii) (s : string) : string :=
  match s with
  | "" => ""
  | String c s' => repr_char quote c +:+ repr_body quote s'
  end.

Definition repr (s : string) : string :=
  let quote :=
    if string_existsb (Ascii.eqb SQUOTE) s && negb (string_existsb (Ascii.eqb DQUOTE) s)
    then DQUOTE else SQUOTE in
  String quote (repr_body quote s +:+ String quote "").

(** ** Exceptions and results *)

(** The exceptions the script can meet; all of them derive from
    [Exception], so the script's outer [except Exception] catches each. *)
Inductive exn : Type :=
| StopIteration
| ValueError (msg : string)
| csv_Error (msg : string)
| FileNotFoundError (filename : string)
| PermissionError (filename : string).

(** [str(e)], as interpolated by [f"{e}"]. *)
Definition str_exn (e : exn) : string :=
  match e with
  | StopIteration => ""
  | ValueError msg => msg
  | csv_Error msg => msg
  | FileNotFoundError f => "[Errno 2] No such file or directory: " +:+ repr f
  | PermissionError f => "[Errno 13] Permission denied: " +:+ repr f
  end.

Definition is_ValueError (e : exn) : bool :=
  match e with ValueError _ => true | _ => false end.

Definition is_Exception (e : exn) : bool := true.

Inductive result (A : Type) : Type :=
| Ok (a : A)
| Raise (e : exn).
Arguments Ok {A} a.
Arguments Raise {A} e.

(** ** Python values that reach [json.dump] *)

#[warnings="-register-all"]
Inductive value : Type :=
| VStr (s : string)
| VFloat (x : spec_float)
| VList (items : list value)
| VDict (items : list (string * value)).

(** ** The state-and-exception monad of the script

    The world holds the regular files with their text, the paths the
    operating system refuses to open for reading or for writing, the
    command line, and the lines printed so far (one entry per [print]). *)

Record world : Type := mkWorld {
  files : gmap string string;
  read_denied : gset string;
  write_denied : gset string;
  sys_argv : list string;
  stdout : list string
}.

Definition M (A : Type) : Type := world -> result A * world.

Definition ret {A} (a : A) : M A := fun w => (Ok a, w).

Definition raise {A} (e : exn) : M A := fun w => (Raise e, w).

Definition bind {A B} (m : M A) (k : A -> M B) : M B :=
  fun w => match m w with
           | (Ok a, w') => k a w'
           | (Raise e, w') => (Raise e, w')
           end.

(** [try: body  except <class> as e: handler e]; an exception outside the
    class keeps propagating. *)
Definition try_except {A} (body : M A) (class : exn -> bool) (handler : exn -> M A) : M A :=
  fun w => match body w with
           | (Ok a, w') => (Ok a, w')
           | (Raise e, w') => if class e then handler e w' else (Raise e, w')
           end.

Definition lift {A} (r : result A) : M A := fun w => (r, w).

Declare Scope py_scope.
Delimit Scope py_scope with py.
Notation "'do' x <- m ; k" := (bind m (fun x => k))
  (at level 10, x name, m at level 100, k at level 200) : py_scope.
Notation "'do' ' p <- m ; k" := (bind m (fun p => k))
  (at level 10, p pattern, m at level 100, k at level 200) : py_scope.
Notation "'run' m ; k" := (bind m (fun _ => k))
  (at level 10, m at level 100, k at level 200) : py_scope.
Notation "'try' body 'except' class 'as' e => handler" :=
  (try_except body class (fun e => handler))
  (at level 10, body at level 200, class at level 9, e name, handler at level 200) : py_scope.

(** The world after some more lines were printed, and after a file was
    (re)written in full; used to state what a run leaves behind. *)
Definition printed (w : world) (lines : list string) : world :=
  mkWorld (files w) (read_denied w) (write_denied w) (sys_argv w)
          (stdout w ++ lines).

Definition written (w : world) (path text : string) : world :=
  mkWorld (<[path := text]> (files w)) (read_denied w) (write_denied w)
          (sys_argv w) (stdout w).

Module builtins.

(** [print(line)]. *)
Definition print (line : string) : M unit :=
  fun w => (Ok tt, mkWorld (files w) (read_denied w) (write_denied w)
                           (sys_argv w) (stdout w ++ [line])).

(** *** [float(str)]

    [float_from_string]: white space is stripped from both ends,
    underscores are accepted between digits only
    ([_Py_string_to_number_with_underscores]), and the rest must be, in
    full, an optional sign followed by digits with an optional point and
    exponent, or by [inf], [infinity] or [nan] in any letter case. *)

Fixpoint lstrip (s : string) : string :=
  match s with
  | String c s' => if Py_ISSPACE c then lstrip s' else s
  | "" => ""
  end.

Definition strip (s : string) : string :=
  string_rev (lstrip (string_rev (lstrip s))).

Fixpoint remove_underscores (prev : ascii) (s : string) : option string :=
  match s with
  | "" => if (prev =? "_")%char then None else Some ""
  | String c s' =>
      if (c =? "_")%char then
        if is_digit prev then remove_underscores c s' else None
      else if (prev =? "_")%char && negb (is_digit c) then None
      else String c <$> remove_underscores c s'
  end.

Definition scan_sign (s : string) : bool * string :=
  match s with
  | String "-" s' => (true, s')
  | String "+" s' => (false, s')
  | _ => (false, s)
  end.

(** Reads a run of digits: the number read so far, how many digits were
    read, and the text left. *)
Fixpoint scan_digits (acc count : N) (s : string) : N * N * string :=
  match s with
  | String c s' =>
      if is_digit c then scan_digits (acc * 10 + digit_value c) (count + 1) s'
      else (acc, count, s)
  | "" => (acc, count, s)
  end.

(** An exponent part is taken only when it has at least one digit. *)
Definition scan_exponent (s : string) : Z * string :=
  match s with
  | String c s1 =>
      if (to_lower c =? "e")%char then
        let '(neg, s2) := scan_sign s1 in
        let '(e, count, s3) := scan_digits 0 0 s2 in
        if (count =? 0)%N then (0%Z, s)
        else ((if neg then - Z.of_N e else Z.of_N e)%Z, s3)
      else (0%Z, s)
  | "" => (0%Z, s)
  end.

(** The binary64 value nearest to [m * 10 ^ e], ties to even.  For a
    negative [e] the quotient is taken with 64 bits to spare and a
    sticky bit for the remainder, which [binary_round] then rounds. *)
Definition decimal_to_double (neg : bool) (m : N) (e : Z) : spec_float :=
  match m with
  | N0 => S754_zero neg
  | Npos p =>
      if (0 <=? e)%Z then binary_round 53 1024 neg (p * Z.to_pos (10 ^ e)) 0
      else
        let d := (10 ^ (- e))%Z in
        let k := (Z.log2 d + 64)%Z in
        let n := (Zpos p * 2 ^ k)%Z in
        let sticky := if (n mod d =? 0)%Z then 0%Z else 1%Z in
        binary_round 53 1024 neg (Z.to_pos (2 * (n / d) + sticky)) (- (k + 1))
  end.

Fixpoint skip_keyword (kw s : string) : option string :=
  match kw, s with
  | "", _ => Some s
  | String k kw', String c s' =>
      if (to_lower c =? k)%char then skip_keyword kw' s' else None
  | String _ _, "" => None
  end.

(** [_Py_parse_inf_or_nan]. *)
Definition parse_inf_or_nan (s : string) : option (spec_float * string) :=
  let '(neg, s1) := scan_sign s in
  match skip_keyword "inf" s1 with
  | Some s2 =>
      match skip_keyword "inity" s2 with
      | Some s3 => Some (S754_infinity neg, s3)
      | None => Some (S754_infinity neg, s2)
      end
  | None =>
      match skip_keyword "nan" s1 with
      | Some s2 => Some (S754_nan, s2)
      | None => None
      end
  end.

(** [_PyOS_ascii_strtod]: the value of the longest numeric prefix and
    the text after it; [None] when no prefix is a number. *)
Definition strtod (s : string) : option (spec_float * string) :=
  let '(neg, s1) := scan_sign s in
  let '(int_part, n_int, s2) := scan_digits 0 0 s1 in
  let '(m, n_frac, s3) :=
    match s2 with
    | String "." s2' => scan_digits int_part 0 s2'
    | _ => (int_part, 0%N, s2)
    end in
  if (n_int + n_frac =? 0)%N then parse_inf_or_nan s
  else
    let '(e, s4) := scan_exponent s3 in
    Some (decimal_to_double neg m (e - Z.of_N n_frac), s4).

Definition float (x : string) : result spec_float :=
  let error := ValueError ("could not convert string to float: " +:+ repr x) in
  match remove_underscores "000" (strip x) with
  | None => Raise error
  | Some s =>
      match strtod s with
      | Some (v, "") => Ok v
      | _ => Raise error
      end
  end.

End builtins.

Module datetime.

(** A [datetime] built by [strptime] from a date-only format: the time
    of day is midnight and plays no part. *)
Record datetime : Type := mkDatetime { year : N; month : N; day : N }.

Definition is_leap (y : N) : bool :=
  ((y mod 4 =? 0) && (negb (y mod 100 =? 0) || (y mod 400 =? 0)))%N.

Definition days_in_month (y m : N) : N :=
  if (m =? 2)%N then (if is_leap y then 29 else 28)%N
  else if ((m =? 4) || (m =? 6) || (m =? 9) || (m =? 11))%N then 30%N
  else 31%N.

(** *** [datetime.strptime(s, '%m/%d/%Y')]

    [_strptime] compiles the format to the regular expression
    [(1[0-2]|0[1-9]|[1-9])/(3[0-1]|[1-2]\d|0[1-9]|[1-9]| [1-9])/(\d\d\d\d)],
    matches it at the start of the text and rejects left-over text; the
    calendar check is the [date] constructor's.  Each directive below
    lists its ways to match a prefix, in the order the alternatives are
    tried, with the number read and the text left. *)

Definition digit_in (lo hi : ascii) (c : ascii) : bool :=
  ((lo <=? c) && (c <=? hi))%char.

Definition directive_m (s : string) : list (N * string) :=
  match s with
  | String c1 s1 =>
      (match s1 with
       | String c2 s2 =>
           (if (c1 =? "1")%char && digit_in "0" "2" c2
            then [((10 + digit_value c2)%N, s2)] else []) ++
           (if (c1 =? "0")%char && digit_in "1" "9" c2
            then [(digit_value c2, s2)] else [])
       | "" => []
       end) ++
      (if digit_in "1" "9" c1 then [(digit_value c1, s1)] else [])
  | "" => []
  end.

Definition directive_d (s : string) : list (N * string) :=
  match s with
  | String c1 s1 =>
      (match s1 with
       | String c2 s2 =>
           (if (c1 =? "3")%char && digit_in "0" "1" c2
            then [((30 + digit_value c2)%N, s2)] else []) ++
           (if digit_in "1" "2" c1 && is_digit c2
            then [((10 * digit_value c1 + digit_value c2)%N, s2)] else []) ++
           (if (c1 =? "0")%char && digit_in "1" "9" c2
            then [(digit_value c2, s2)] else [])
       | "" => []
       end) ++
      (if digit_in "1" "9" c1 then [(digit_value c1, s1)] else []) ++
      (match s1 with
       | String c2 s2 =>
           if (c1 =? " ")%char && digit_in "1" "9" c2
           then [(digit_value c2, s2)] else []
       | "" => []
       end)
  | "" => []
  end.

Definition directive_Y (s : string) : list (N * string) :=
  match s with
  | String c1 (String c2 (String c3 (String c4 s'))) =>
      if is_digit c1 && is_digit c2 && is_digit c3 && is_digit c4
      then [((1000 * digit_value c1 + 100 * digit_value c2
              + 10 * digit_value c3 + digit_value c4)%N, s')]
      else []
  | _ => []
  end.

Definition literal (c : ascii) (s : string) : list string :=
  match s with
  | String c' s' => if (c' =? c)%char then [s'] else []
  | "" => []
  end.

(** Every way the whole expression matches a prefix, first match first. *)
Definition format_regex_matches (s : string) : list (N * N * N * string) :=
  '(m, s1) ← directive_m s;
  s2 ← literal "/" s1;
  '(d, s3) ← directive_d s2;
  s4 ← literal "/" s3;
  '(y, s5) ← directive_Y s4;
  [(m, d, y, s5)].

Definition strptime_m_d_Y (data_string : string) : result datetime :=
  match format_regex_matches data_string with
  | [] =>
      Raise (ValueError ("time data " +:+ repr data_string +:+
                         " does not match format '%m/%d/%Y'"))
  | (m, d, y, rest) :: _ =>
      if negb (rest =? "")%string
      then Raise (ValueError ("unconverted data remains: " +:+ rest))
      else if (y =? 0)%N
      then Raise (ValueError "year 0 is out of range")
      else if (days_in_month y m <? d)%N
      then Raise (ValueError "day is out of range for month")
      else Ok (mkDatetime y m d)
  end.

(** *** [date_obj.strftime('%Y-%m-%d')]

    [strftime] hands the format to the C library.  With glibc, the
    library under CPython on Linux, [%Y] is the year in decimal without
    padding (the year 999 gives [999]), while [%m] and [%d] are two
    digits, zero padded. *)
Definition strftime_Y_m_d (d : datetime) : string :=
  pretty (year d) +:+ "-" +:+ zero_padded 2 (month d) +:+ "-" +:+
  zero_padded 2 (day d).

End datetime.

Module io.

(** *** Text files

    [open(path, 'r')] reads with universal newlines: [\r\n] and a lone
    [\r] arrive as [\n].  Iterating the file yields its lines, each with
    its final [\n] (the last line may lack one). *)

Fixpoint universal_newlines (s : string) : string :=
  match s with
  | "" => ""
  | String c rest =>
      if (c =? CR)%char then
        String LF (match rest with
                   | String c' rest' =>
                       if (c' =? LF)%char then universal_newlines rest'
                       else universal_newlines rest
                   | "" => ""
                   end)
      else String c (universal_newlines rest)
  end.

Fixpoint split_lines (s : string) : list string :=
  match s with
  | "" => []
  | String c rest =>
      if (c =? LF)%char then String c "" :: split_lines rest
      else match split_lines rest with
           | [] => [String c ""]
           | line :: lines => String c line :: lines
           end
  end.

Definition readlines (text : string) : list string :=
  split_lines (universal_newlines text).

(** [open(path, 'r')]: the text of the file, read through the returned
    file object while nothing else touches the file. *)
Definition open_r (path : string) : M string :=
  fun w => match files w !! path with
           | None => (Raise (FileNotFoundError path), w)
           | Some text =>
               if decide (path ∈ read_denied w)
               then (Raise (PermissionError path), w)
               else (Ok text, w)
           end.

(** [open(path, 'w')]: creates or truncates the file; the file object is
    identified with its path. *)
Definition open_w (path : string) : M string :=
  fun w => if decide (path ∈ write_denied w)
           then (Raise (PermissionError path), w)
           else (Ok path, mkWorld (<[path := ""]> (files w)) (read_denied w)
                                  (write_denied w) (sys_argv w) (stdout w)).

(** [fp.write(text)] appends to what the file holds. *)
Definition write (fp : string) (text : string) : M unit :=
  fun w => (Ok tt, mkWorld (alter (fun old => old +:+ text) fp (files w))
                           (read_denied w) (write_denied w) (sys_argv w) (stdout w)).

End io.

Module csv.

(** *** [csv.reader] with the default [excel] dialect

    Comma as delimiter, the double quote as quote character, written
    twice to stand for itself in a quoted field, no escape character,
    not strict.  The parser is the state machine of [_csv.c], with its
    limit on the size of one field; the states that only an escape
    character reaches are left out. *)

Inductive ParserState : Type :=
| START_RECORD
| START_FIELD
| IN_FIELD
| IN_QUOTED_FIELD
| QUOTE_IN_QUOTED_FIELD
| EAT_CRNL.

(** The parser's state: [field] is the buffer of the field being read,
    held with its last character first, and [field_len] the number of
    characters in it. *)
Record ReaderObj : Type := mkReader {
  state : ParserState;
  fields : list string;
  field : string;
  field_len : N
}.

(** [csv.field_size_limit()], by default. *)
Definition field_limit : N := 131072.

Definition field_limit_error : exn :=
  csv_Error "field larger than field limit (131072)".

Definition parse_reset : ReaderObj := mkReader START_RECORD [] "" 0.

Definition set_state (self : ReaderObj) (st : ParserState) : ReaderObj :=
  mkReader st (fields self) (field self) (field_len self).

Definition parse_save_field (self : ReaderObj) : ReaderObj :=
  mkReader (state self) (fields self ++ [string_rev (field self)]) "" 0.

Definition parse_add_char (self : ReaderObj) (c : ascii) : result ReaderObj :=
  if (field_limit <=? field_len self)%N then Raise field_limit_error
  else Ok (mkReader (state self) (fields self) (String c (field self))
                    (field_len self + 1)).

(** [parse_add_char] followed by the assignment of the next state. *)
Definition add_char_then (self : ReaderObj) (c : ascii) (st : ParserState)
    : result ReaderObj :=
  match parse_add_char self c with
  | Ok self' => Ok (set_state self' st)
  | Raise e => Raise e
  end.

Definition is_newline (c : ascii) : bool := ((c =? LF) || (c =? CR))%char.

Definition delimiter : ascii := ","%char.
Definition quotechar : ascii := DQUOTE.

(** The state for the end of a line, [EOL] being [None]. *)
Definition after_newline (c : option ascii) : ParserState :=
  match c with None => START_RECORD | Some _ => EAT_CRNL end.

(** The [START_FIELD] case, also reached by falling through from
    [START_RECORD]. *)
Definition parse_start_field (self : ReaderObj) (c : option ascii) : result ReaderObj :=
  match c with
  | None => Ok (set_state (parse_save_field self) START_RECORD)
  | Some ch =>
      if is_newline ch then Ok (set_state (parse_save_field self) EAT_CRNL)
      else if (ch =? quotechar)%char then Ok (set_state self IN_QUOTED_FIELD)
      else if (ch =? delimiter)%char then Ok (parse_save_field self)
      else add_char_then self ch IN_FIELD
  end.

Definition parse_process_char (self : ReaderObj) (c : option ascii) : result ReaderObj :=
  match state self with
  | START_RECORD =>
      match c with
      | None => Ok self
      | Some ch =>
          if is_newline ch then Ok (set_state self EAT_CRNL)
          else parse_start_field (set_state self START_FIELD) c
      end
  | START_FIELD => parse_start_field self c
  | IN_FIELD =>
      match c with
      | None => Ok (set_state (parse_save_field self) START_RECORD)
      | Some ch =>
          if is_newline ch then Ok (set_state (parse_save_field self) EAT_CRNL)
          else if (ch =? delimiter)%char
          then Ok (set_state (parse_save_field self) START_FIELD)
          else parse_add_char self ch
      end
  | IN_QUOTED_FIELD =>
      match c with
      | None => Ok self
      | Some ch =>
          if (ch =? quotechar)%char then Ok (set_state self QUOTE_IN_QUOTED_FIELD)
          else parse_add_char self ch
      end
  | QUOTE_IN_QUOTED_FIELD =>
      match c with
      | None => Ok (set_state (parse_save_field self) START_RECORD)
      | Some ch =>
          if (ch =? quotechar)%char
          then add_char_then self ch IN_QUOTED_FIELD
          else if (ch =? delimiter)%char
          then Ok (set_state (parse_save_field self) START_FIELD)
          else if is_newline ch
          then Ok (set_state (parse_save_field self) EAT_CRNL)
          else add_char_then self ch IN_FIELD
      end
  | EAT_CRNL =>
      match c with
      | None => Ok (set_state self START_RECORD)
      | Some ch =>
          if is_newline ch then Ok self
          else Raise (csv_Error ("new-line character seen in unquoted field - " +:+
                                 "do you need to open the file with newline=''?"))
      end
  end.

(** The characters of one line, without the closing [EOL]. *)
Fixpoint parse_chars (self : ReaderObj) (chars : string) : result ReaderObj :=
  match chars with
  | "" => Ok self
  | String c rest =>
      match parse_process_char self (Some c) with
      | Ok self' => parse_chars self' rest
      | Raise e => Raise e
      end
  end.

Definition parse_line (self : ReaderObj) (line : string) : result ReaderObj :=
  match parse_chars self line with
  | Ok self' => parse_process_char self' None
  | Raise e => Raise e
  end.

Definition is_START_RECORD (st : ParserState) : bool :=
  match st with START_RECORD => true | _ => false end.

Definition is_IN_QUOTED_FIELD (st : ParserState) : bool :=
  match st with IN_QUOTED_FIELD => true | _ => false end.

(** What a reader will yield: its rows in order, then either the end of
    the iteration ([None]) or the exception that interrupts it.  The
    reader has no effect but to consume the lines, so its whole future
    is a function of them. *)
Record reader : Type := mkIter {
  rows : list (list string);
  failure : option exn
}.

Definition yield (row : list string) (it : reader) : reader :=
  mkIter (row :: rows it) (failure it).

(** [Reader_iternext], iterated: [self] is the parser in the middle of a
    record, and a record is complete when a line leaves the parser in
    [START_RECORD].  When the lines run out inside a record, the record
    read so far is yielded. *)
Fixpoint Reader_iter (self : ReaderObj) (input_iter : list string) : reader :=
  match input_iter with
  | [] =>
      if negb (field_len self =? 0)%N || is_IN_QUOTED_FIELD (state self)
      then mkIter [fields (parse_save_field self)] None
      else mkIter [] None
  | lineobj :: rest =>
      match parse_line self lineobj with
      | Raise e => mkIter [] (Some e)
      | Ok self' =>
          if is_START_RECORD (state self')
          then yield (fields self') (Reader_iter parse_reset rest)
          else Reader_iter self' rest
      end
  end.

(** [csv.reader(csvfile)] over an open text file. *)
Definition reader_of (csvfile : string) : reader :=
  Reader_iter parse_reset (io.readlines csvfile).

End csv.

Module iter.

(** [next(it)]: the next row and the advanced iterator. *)
Definition next (it : csv.reader) : result (list string * csv.reader) :=
  match csv.rows it with
  | row :: rest => Ok (row, csv.mkIter rest (csv.failure it))
  | [] => Raise (default StopIteration (csv.failure it))
  end.

(** [for row in it: body], the loop's variables threaded as [s]. *)
Fixpoint for_rows {S : Type} (rows : list (list string))
    (body : list string -> S -> M S) (s : S) : M S :=
  match rows with
  | [] => ret s
  | row :: rest => bind (body row s) (for_rows rest body)
  end.

Definition for_in {S : Type} (it : csv.reader)
    (body : list string -> S -> M S) (s : S) : M S :=
  bind (for_rows (csv.rows it) body s)
       (fun s' => match csv.failure it with
                  | Some e => raise e
                  | None => ret s'
                  end).

(** [a, b, c = row]. *)
Definition unpack3 (row : list string) : result (string * string * string) :=
  match row with
  | [a; b; c] => Ok (a, b, c)
  | _ :: _ :: _ :: _ :: _ => Raise (ValueError "too many values to unpack (expected 3)")
  | _ => Raise (ValueError ("not enough values to unpack (expected 3, got " +:+
                            pretty (length row) +:+ ")"))
  end.

End iter.

(** * Sample data

    Concrete files and worlds on which the script is run below. *)

Module sample.

Definition rate_lines : list string :=
  ["Date,Currency,Rate"; "01/15/2023,USD,1.0732"; "01/16/2023,EUR,bad";
   "01/17/2023,GBP"].

Definition extra_field_lines : list string :=
  ["Date,Currency,Rate"; "01/15/2023,USD,1.0732,note"].

(** A world whose only file is [rates.csv], every path being readable
    and writable, started as [csvtojson.py rates.csv rates.json]. *)
Definition world_with (text : string) : world :=
  mkWorld {[ "rates.csv" := text ]} ∅ ∅
          ["csvtojson.py"; "rates.csv"; "rates.json"] [].

(** A compact rendering of a value, standing in for the JSON serialiser
    where the script is run on concrete data; a number is shown by its
    binary mantissa and exponent. *)
Fixpoint dumps_compact (v : value) : string :=
  match v with
  | VStr s => String DQUOTE (s +:+ String DQUOTE "")
  | VFloat (S754_finite sign m e) =>
      (if sign then "-" else "") +:+ pretty (Npos m) +:+ "p" +:+ pretty e
  | VFloat (S754_zero sign) => if sign then "-0.0" else "0.0"
  | VFloat (S754_infinity sign) => if sign then "-Infinity" else "Infinity"
  | VFloat S754_nan => "NaN"
  | VList items =>
      "[" +:+
      (fix elements (l : list value) : string :=
         match l with
         | [] => ""
         | x :: l' =>
             dumps_compact x +:+
             (match l' with [] => "" | _ :: _ => "," end) +:+ elements l'
         end) items +:+ "]"
  | VDict items =>
      "{" +:+
      (fix members (l : list (string * value)) : string :=
         match l with
         | [] => ""
         | (k, x) :: l' =>
             String DQUOTE (k +:+ String DQUOTE ":") +:+ dumps_compact x +:+
             (match l' with [] => "" | _ :: _ => "," end) +:+ members l'
         end) items +:+ "}"
  end.

Definition dumps (v : value) (indent : nat) : string := dumps_compact v.

Definition rates_text : string := join_lines (String LF "") true rate_lines.


Definition extra_field_text : string := join_lines (String LF "") true extra_field_lines.


(** A row dated in the year 999. *)
Definition early_year_row : list string := ["01/01/0999"; "USD"; "1.0"].

(** The same command line with the output path left out. *)
Definition world_one_argument : world :=
  mkWorld {[ "rates.csv" := rates_text ]} ∅ ∅ ["csvtojson.py"; "rates.csv"] [].

(** A row whose rate does not parse, then a row with a fourth field. *)
Definition warning_then_extra_text : string :=
  join_lines (String LF "") true
    ["Date,Currency,Rate"; "01/16/2023,EUR,bad"; "01/15/2023,USD,1.0732,note";
     "01/17/2023,GBP,n/a"].

(** The world of [world_with], except that [rates.json] cannot be opened
    for writing. *)
Definition world_output_denied (text : string) : world :=
  mkWorld {[ "rates.csv" := text ]} ∅ {[ "rates.json" ]}
          ["csvtojson.py"; "rates.csv"; "rates.json"] [].

End sample.

(** * The script, [src/csvtojson.py] *)

Section csvtojson.

Local Open Scope py_scope.

(** [json.dumps(obj, indent=n)]: the JSON text of a value.  The
    properties below hold whatever the serialiser's output is, so it is
    left as a parameter of the development. *)
Variable json_dumps : value -> nat -> string.

(** [json.dump(obj, fp, indent=n)]. *)
Definition json_dump (obj : value) (fp : string) (indent : nat) : M unit :=
  io.write fp (json_dumps obj indent).

Definition warning (rate currency date_str : string) : string :=
  "Avertissement: Impossible de convertir le taux '" +:+ rate +:+
  "' en nombre pour " +:+ currency +:+ " à la date " +:+ date_str.

(** The body of the [for row in csv_reader] loop (lines 26-49), with the
    list [exchange_rates] it appends to threaded through. *)
Definition process_row (row : list string) (exchange_rates : list value)
    : M (list value) :=
  if (3 <=? length row)%nat then
    do '(date_str, currency, rate) <- lift (iter.unpack3 row) ;
    do iso_date <-
      (try (do date_obj <- lift (datetime.strptime_m_d_Y date_str) ;
            ret (datetime.strftime_Y_m_d date_obj))
       except is_ValueError as e => ret date_str) ;
    do rate_float <-
      (try (do x <- lift (builtins.float rate) ; ret (VFloat x))
       except is_ValueError as e =>
         (run builtins.print (warning rate currency date_str) ;
          ret (VStr rate))) ;
    ret (exchange_rates ++
           [VDict [("date", VStr iso_date);
                   ("currency", VStr currency);
                   ("rate", rate_float)]])
  else ret exchange_rates.

(** The first [with] block (lines 17-49): open the input, skip the
    header, process every row; its result is the list [exchange_rates]. *)
Definition read_exchange_rates (input_file : string) : M (list value) :=
  do csv_file <- io.open_r input_file ;
  let csv_reader := csv.reader_of csv_file in
  do '(header, csv_reader) <- lift (iter.next csv_reader) ;
  iter.for_in csv_reader process_row [].

Definition success_message (output_file : string) : string :=
  "Conversion réussie. Résultat écrit dans " +:+ output_file.

Definition error_message (e : exn) : string :=
  "Erreur lors de la conversion: " +:+ str_exn e.

Definition convert_csv_to_json (input_file output_file : string) : M bool :=
  try (do exchange_rates <- read_exchange_rates input_file ;
       let json_data := VDict [("exchange_rates", VList exchange_rates)] in
       do json_file <- io.open_w output_file ;
       run json_dump json_data json_file 2 ;
       run builtins.print (success_message output_file) ;
       ret true)
  except is_Exception as e =>
    (run builtins.print (error_message e) ;
     ret false).

Definition usage : string :=
  "Usage: python convert_exchange_rates.py input.csv output.json".

Definition main : M unit :=
  fun w =>
    if negb (length (sys_argv w) =? 3)%nat then
      (run builtins.print usage ; ret tt) w
    else
      let input_file := nth 1 (sys_argv w) "" in
      let output_file := nth 2 (sys_argv w) "" in
      (run convert_csv_to_json input_file output_file ; ret tt) w.

(** The exit status of the interpreter running [main()] as the script's
    last statement: 0 when it returns, 1 on an uncaught exception; the
    script itself never calls [sys.exit]. *)
Definition exit_status (w : world) : Z :=
  match main w with
  | (Ok _, _) => 0
  | (Raise _, _) => 1
  end.

(** ** The row-level contract, as pure functions

    What one input row contributes, read off [process_row]: the entry it
    appends and the warning lines it prints. *)

Definition too_many_values : exn :=
  ValueError "too many values to unpack (expected 3)".

Definition iso_date_of (date_str : string) : string :=
  match datetime.strptime_m_d_Y date_str with
  | Ok date_obj => datetime.strftime_Y_m_d date_obj
  | Raise _ => date_str
  end.

Definition rate_of (rate : string) : value :=
  match builtins.float rate with
  | Ok x => VFloat x
  | Raise _ => VStr rate
  end.

Definition entry (iso_date currency : string) (rate_float : value) : value :=
  VDict [("date", VStr iso_date); ("currency", VStr currency); ("rate", rate_float)].

Definition entry_of_row (row : list string) : option value :=
  match row with
  | [date_str; currency; rate] => Some (entry (iso_date_of date_str) currency (rate_of rate))
  | _ => None
  end.

Definition warnings_of_row (row : list string) : list string :=
  match row with
  | [date_str; currency; rate] =>
      match builtins.float rate with
      | Ok _ => []
      | Raise _ => [warning rate currency date_str]
      end
  | _ => []
  end.

(** The document handed to [json.dump]. *)
Definition document (exchange_rates : list value) : value :=
  VDict [("exchange_rates", VList exchange_rates)].

(** The text of a date in the shape [YYYY-MM-DD]. *)
Definition is_YYYY_MM_DD (s : string) : bool :=
  match s with
  | String y1 (String y2 (String y3 (String y4 (String d1
      (String m1 (String m2 (String d2 (String dd1 (String dd2 ""))))))))) =>
      is_digit y1 && is_digit y2 && is_digit y3 && is_digit y4 &&
      (d1 =? "-")%char && is_digit m1 && is_digit m2 &&
      (d2 =? "-")%char && is_digit dd1 && is_digit dd2
  | _ => false
  end.

(** The text [prefix] starts [s]. *)
Definition starts_with (prefix s : string) : Prop :=
  exists rest, s = prefix +:+ rest.





(** Text made of ASCII characters only, the text the model covers. *)
Definition is_ascii (s : string) : bool :=
  string_forallb (fun c => (N_of_ascii c <? 128)%N) s.

(** The number a run of decimal digits denotes. *)
Fixpoint decimal_value_from (acc : N) (s : string) : N :=
  match s with
  | "" => acc
  | String c s' => decimal_value_from (acc * 10 + digit_value c) s'
  end.

Definition decimal_value (s : string) : N := decimal_value_from 0 s.

(** Reads a text of the shape [YYYY-MM-DD] back into its year, month
    and day; [None] for a text of another shape. *)
Definition read_Y_m_d (s : string) : option (N * N * N) :=
  if is_YYYY_MM_DD s
  then Some (decimal_value (String.substring 0 4 s),
             decimal_value (String.substring 5 2 s),
             decimal_value (String.substring 8 2 s))
  else None.

(** A calendar date of the years 1 to 9999. *)
Definition valid_date (d : datetime.datetime) : Prop :=
  (1 <= datetime.year d <= 9999 /\ 1 <= datetime.month d <= 12 /\
   1 <= datetime.day d <= datetime.days_in_month (datetime.year d) (datetime.month d))%N.

(** An entry of the output schema: the keys [date], [currency] and
    [rate] in this order, the first two holding strings and the last a
    number or a string. *)
Definition well_formed_entry (v : value) : Prop :=
  exists iso_date currency rate_float,
    v = VDict [("date", VStr iso_date); ("currency", VStr currency);
               ("rate", rate_float)] /\
    ((exists x, rate_float = VFloat x) \/ (exists s, rate_float = VStr s)).

(** The entry kept its rate as a string. *)
Definition has_string_rate (v : value) : bool :=
  match v with
  | VDict [_; _; (_, VStr _)] => true
  | _ => false
  end.

(** * Properties *)

(** ** Strings *)

Lemma append_cons (c : ascii) (s t : string) : String c s +:+ t = String c (s +:+ t).
Proof. reflexivity. Qed.

Lemma append_nil_r (s : string) : s +:+ "" = s.
Proof. induction s as [| c s IH]; [done | by rewrite append_cons, IH]. Qed.

Lemma append_assoc (s t u : string) : (s +:+ t) +:+ u = s +:+ t +:+ u.
Proof. induction s as [| c s IH]; [done | by rewrite !append_cons, IH]. Qed.

Lemma decimal_digit (n : N) : is_digit (ascii_of_N (48 + n mod 10)) = true.
Proof.
  assert (Hlt : (n mod 10 < 10)%N) by (apply N.mod_lt; lia).
  destruct (n mod 10)%N as [| p]; [done |].
  do 4 (destruct p as [p | p |]; try done; try lia).
Qed.

(** ** Dates *)

Lemma ascii_leb_le (a b : ascii) :
  (a <=? b)%char = true <-> (N_of_ascii a <= N_of_ascii b)%N.
Proof.
  unfold Ascii.leb, Ascii.compare, N.le.
  destruct (N_of_ascii a ?= N_of_ascii b)%N; split; congruence.
Qed.

Lemma digit_in_bounds lo hi c :
  datetime.digit_in lo hi c = true ->
  (N_of_ascii lo <= N_of_ascii c <= N_of_ascii hi)%N.
Proof.
  unfold datetime.digit_in. intros [H1 H2]%andb_true_iff.
  by apply ascii_leb_le in H1, H2.
Qed.

Lemma is_digit_bounds c : is_digit c = true -> (48 <= N_of_ascii c <= 57)%N.
Proof. apply (digit_in_bounds "0" "9"). Qed.

Ltac char_bounds :=
  repeat match goal with
    | H : _ && _ = true |- _ => apply andb_true_iff in H as [? ?]
    | H : datetime.digit_in _ _ _ = true |- _ => apply digit_in_bounds in H; simpl in H
    | H : is_digit _ = true |- _ => apply is_digit_bounds in H
    end;
  unfold digit_value; simpl; lia.

Ltac alternatives :=
  repeat match goal with
    | |- Forall _ [] => apply Forall_nil_2
    | |- Forall _ (_ ++ _) => apply Forall_app; split
    | |- Forall _ [_] => apply Forall_singleton
    | |- Forall _ (if ?b then _ else _) => destruct b eqn:?
    | |- Forall _ (match ?s with "" => _ | String _ _ => _ end) => destruct s
    end.

Lemma directive_m_range s :
  Forall (fun r => (1 <= r.1 <= 12)%N) (datetime.directive_m s).
Proof. unfold datetime.directive_m. alternatives; char_bounds. Qed.

Lemma directive_d_range s :
  Forall (fun r => (1 <= r.1 <= 31)%N) (datetime.directive_d s).
Proof. unfold datetime.directive_d. alternatives; char_bounds. Qed.

Lemma directive_Y_range s :
  Forall (fun r => (r.1 <= 9999)%N) (datetime.directive_Y s).
Proof.
  unfold datetime.directive_Y.
  destruct s as [| c1 [| c2 [| c3 [| c4 s]]]]; alternatives; char_bounds.
Qed.

Lemma format_regex_matches_range s :
  Forall (fun r => let '(m, d, y, _) := r in
                   (1 <= m <= 12 /\ 1 <= d <= 31 /\ y <= 9999)%N)
         (datetime.format_regex_matches s).
Proof.
  unfold datetime.format_regex_matches.
  apply Forall_bind. eapply Forall_impl; [apply directive_m_range |].
  intros [m s1] Hm.
  apply Forall_bind, Forall_forall. intros s2 _.
  apply Forall_bind. eapply Forall_impl; [apply directive_d_range |].
  intros [d s3] Hd.
  apply Forall_bind, Forall_forall. intros s4 _.
  apply Forall_bind. eapply Forall_impl; [apply directive_Y_range |].
  intros [y s5] Hy.
  by apply Forall_singleton.
Qed.

(** What [strptime] returns is a date of the calendar. *)
Lemma strptime_valid s d :
  datetime.strptime_m_d_Y s = Ok d -> valid_date d.
Proof.
  unfold datetime.strptime_m_d_Y. pose proof (format_regex_matches_range s) as Hall.
  destruct (datetime.format_regex_matches s) as [| [[[m dd] y] rest] ?]; [done |].
  apply Forall_cons in Hall as [(Hm & Hd & Hy) _].
  destruct (negb (rest =? "")%string); [done |].
  destruct (N.eqb_spec y 0); [done |].
  destruct (N.ltb_spec (datetime.days_in_month y m) dd); [done |].
  intros [= <-]. unfold valid_date; simpl. lia.
Qed.

Lemma decimal_value_from_snoc acc s c :
  decimal_value_from acc (s +:+ String c "") =
  (decimal_value_from acc s * 10 + digit_value c)%N.
Proof.
  revert acc. induction s as [| c' s IH]; intros acc; [done |].
  rewrite append_cons. simpl. apply IH.
Qed.

(** The zero-padded rendering is exact when the number fits the width. *)
Lemma zero_padded_exact width n :
  (n < 10 ^ N.of_nat width)%N -> decimal_value (zero_padded width n) = n.
Proof.
  unfold decimal_value. revert n.
  induction width as [| width IH]; intros n Hn.
  - simpl in *. lia.
  - cbn [zero_padded]. rewrite decimal_value_from_snoc.
    rewrite Nat2N.inj_succ, N.pow_succ_r' in Hn.
    rewrite IH by (apply N.Div0.div_lt_upper_bound; lia).
    assert (Hlt : (n mod 10 < 10)%N) by (apply N.mod_lt; lia).
    unfold digit_value. rewrite N_ascii_embedding by lia.
    pose proof (N.div_mod n 10 ltac:(lia)) as Hdm.
    generalize dependent (n / 10)%N. generalize dependent (n mod 10)%N. intros. lia.
Qed.

Lemma pretty_N_char_ascii (k : N) :
  (k < 10)%N -> pretty_N_char k = ascii_of_N (48 + k).
Proof.
  intros Hk. destruct k as [| p]; [done |].
  do 4 (destruct p as [p | p |]; try done; try lia).
Qed.

Lemma pretty_N_go_digit x s :
  (0 < x)%N ->
  pretty_N_go x s = pretty_N_go (x / 10) (String (ascii_of_N (48 + x mod 10)) s).
Proof.
  intros Hx. rewrite pretty_N_go_step by done.
  rewrite pretty_N_char_ascii; [done |]. apply N.mod_lt. lia.
Qed.

(** From the year 1000 on, the unpadded year is the four-digit year. *)
Lemma pretty_four_digits (n : N) :
  (1000 <= n <= 9999)%N -> pretty n = zero_padded 4 n.
Proof.
  intros Hn. unfold pretty, pretty_N.
  destruct (decide (n = 0%N)); [lia |].
  assert (H1 : (0 < n / 10)%N) by (apply N.div_str_pos; lia).
  assert (H2 : (0 < n / 10 / 10)%N) by (apply N.div_str_pos; split; [lia |];
    apply N.div_le_lower_bound; lia).
  assert (H3 : (0 < n / 10 / 10 / 10)%N).
  { apply N.div_str_pos; split; [lia |].
    apply N.div_le_lower_bound; [lia |]. apply N.div_le_lower_bound; lia. }
  assert (H4 : (n / 10 / 10 / 10 / 10 = 0)%N).
  { apply N.div_small. apply N.Div0.div_lt_upper_bound.
    apply N.Div0.div_lt_upper_bound. apply N.Div0.div_lt_upper_bound. lia. }
  rewrite (pretty_N_go_digit n) by lia.
  rewrite (pretty_N_go_digit (n / 10)%N) by done.
  rewrite (pretty_N_go_digit (n / 10 / 10)%N) by done.
  rewrite (pretty_N_go_digit (n / 10 / 10 / 10)%N) by done.
  rewrite H4, pretty_N_go_0. reflexivity.
Qed.

(** Below the year 1000 it has three characters at most. *)
Lemma pretty_short (n : N) :
  (1 <= n < 1000)%N -> (String.length (pretty n) <= 3)%nat.
Proof.
  intros Hn. unfold pretty, pretty_N.
  destruct (decide (n = 0%N)); [lia |].
  rewrite (pretty_N_go_digit n) by lia.
  destruct (N.eq_dec (n / 10)%N 0%N) as [-> | Hq1].
  { rewrite pretty_N_go_0. simpl. lia. }
  rewrite (pretty_N_go_digit (n / 10)%N) by by apply N.neq_0_lt_0.
  destruct (N.eq_dec (n / 10 / 10)%N 0%N) as [-> | Hq2].
  { rewrite pretty_N_go_0. simpl. lia. }
  rewrite (pretty_N_go_digit (n / 10 / 10)%N) by by apply N.neq_0_lt_0.
  assert (H3 : (n / 10 / 10 / 10 = 0)%N).
  { apply N.div_small. apply N.Div0.div_lt_upper_bound.
    apply N.Div0.div_lt_upper_bound. lia. }
  rewrite H3, pretty_N_go_0. simpl. lia.
Qed.

Lemma zero_padded_length width n : String.length (zero_padded width n) = width.
Proof.
  revert n. induction width as [| width IH]; intros n; [done |].
  cbn [zero_padded].
  assert (Hsnoc : forall s c, String.length (s +:+ String c "") = S (String.length s)).
  { clear. intros s c. induction s as [| c' s IH]; [done |].
    rewrite append_cons. simpl. by rewrite IH. }
  by rewrite Hsnoc, IH.
Qed.

Lemma append_length (s t : string) :
  String.length (s +:+ t) = (String.length s + String.length t)%nat.
Proof.
  induction s as [| c s IH]; [done |]. rewrite append_cons. simpl. by rewrite IH.
Qed.

Lemma is_YYYY_MM_DD_length s : is_YYYY_MM_DD s = true -> String.length s = 10%nat.
Proof.
  do 10 (destruct s as [| ? s]; [done |]). by destruct s.
Qed.

(** The date that [strftime] writes for a parsed date: read back, it
    gives the year, the month and the day when the year has four
    digits, and it is not of the shape [YYYY-MM-DD] when the year is
    below 1000. *)
Lemma strftime_read_back d :
  valid_date d ->
  if (1000 <=? datetime.year d)%N
  then read_Y_m_d (datetime.strftime_Y_m_d d) =
       Some (datetime.year d, datetime.month d, datetime.day d)
  else is_YYYY_MM_DD (datetime.strftime_Y_m_d d) = false.
Proof.
  intros (Hy & Hm & Hd).
  assert (Hdays : (datetime.days_in_month (datetime.year d) (datetime.month d) <= 31)%N).
  { unfold datetime.days_in_month. repeat case_match; lia. }
  destruct (N.leb_spec 1000 (datetime.year d)) as [Hfour | Hshort].
  - unfold datetime.strftime_Y_m_d. rewrite pretty_four_digits by lia.
    pose proof (zero_padded_exact 4 (datetime.year d) ltac:(simpl; lia)) as Ey.
    pose proof (zero_padded_exact 2 (datetime.month d) ltac:(simpl; lia)) as Em.
    pose proof (zero_padded_exact 2 (datetime.day d) ltac:(simpl; lia)) as Ed.
    revert Ey Em Ed.
    lazy [zero_padded String.append]. intros Ey Em Ed.
    unfold read_Y_m_d.
    lazy [is_YYYY_MM_DD]. rewrite !decimal_digit.
    cbn [andb Ascii.eqb Bool.eqb String.substring].
    by rewrite Ey, Em, Ed.
  - destruct (is_YYYY_MM_DD (datetime.strftime_Y_m_d d)) eqn:Hshape; [| done].
    apply is_YYYY_MM_DD_length in Hshape.
    unfold datetime.strftime_Y_m_d in Hshape.
    rewrite !append_length, !zero_padded_length in Hshape.
    pose proof (pretty_short (datetime.year d) ltac:(lia)). simpl in Hshape. lia.
Qed.

(** ** Worlds *)

Lemma printed_nil w : printed w [] = w.
Proof. destruct w; unfold printed; simpl. by rewrite app_nil_r. Qed.

Lemma printed_printed w l1 l2 : printed (printed w l1) l2 = printed w (l1 ++ l2).
Proof. unfold printed; simpl. by rewrite <- app_assoc. Qed.

Lemma files_printed w l : files (printed w l) = files w.
Proof. reflexivity. Qed.

Lemma print_printed line w : builtins.print line w = (Ok tt, printed w [line]).
Proof. reflexivity. Qed.

(** Opening for writing and writing once leaves exactly the text. *)
Lemma open_w_write path text w :
  path ∉ write_denied w ->
  bind (io.open_w path) (fun fp => io.write fp text) w = (Ok tt, written w path text).
Proof.
  intros Hw. unfold bind, io.open_w, io.write, written.
  destruct (decide (path ∈ write_denied w)) as [Hin | _]; [done |]. simpl.
  by rewrite alter_insert_eq.
Qed.

Lemma open_w_denied path w :
  path ∈ write_denied w -> io.open_w path w = (Raise (PermissionError path), w).
Proof.
  intros Hw. unfold io.open_w.
  by destruct (decide (path ∈ write_denied w)).
Qed.

(** ** The library raises [ValueError] only *)

Lemma strptime_raises s e :
  datetime.strptime_m_d_Y s = Raise e -> is_ValueError e = true.
Proof.
  unfold datetime.strptime_m_d_Y.
  destruct (datetime.format_regex_matches s) as [| [[[m d] y] rest] ?].
  - by intros [= <-].
  - repeat case_match; by intros [= <-].
Qed.

Lemma float_raises s e :
  builtins.float s = Raise e -> is_ValueError e = true.
Proof.
  unfold builtins.float. repeat case_match; by intros [= <-].
Qed.

(** ** One row *)

Lemma process_row_short row acc w :
  (length row < 3)%nat -> process_row row acc w = (Ok acc, w).
Proof.
  intros Hlen. unfold process_row.
  destruct (Nat.leb_spec 3 (length row)); [lia | done].
Qed.

Lemma process_row_three date_str currency rate acc w :
  process_row [date_str; currency; rate] acc w =
  (Ok (acc ++ [entry (iso_date_of date_str) currency (rate_of rate)]),
   printed w (warnings_of_row [date_str; currency; rate])).
Proof.
  unfold process_row, iso_date_of, rate_of, warnings_of_row, entry.
  unfold bind, try_except, lift, ret, iter.unpack3; simpl.
  destruct (datetime.strptime_m_d_Y date_str) as [date_obj | e1] eqn:Hd;
    [| rewrite (strptime_raises _ _ Hd)];
    (destruct (builtins.float rate) as [x | e2] eqn:Hf;
      [| rewrite (float_raises _ _ Hf)]);
    by rewrite ?printed_nil.
Qed.

Lemma process_row_long row acc w :
  (3 < length row)%nat -> process_row row acc w = (Raise too_many_values, w).
Proof.
  intros Hlen. unfold process_row.
  destruct (Nat.leb_spec 3 (length row)); [| lia].
  destruct row as [| a [| b [| c [| d row]]]]; simpl in Hlen; try lia.
  reflexivity.
Qed.

Lemma short_row_contributes_nothing row :
  (length row < 3)%nat -> entry_of_row row = None /\ warnings_of_row row = [].
Proof.
  destruct row as [| a [| b [| c row]]]; simpl; intros; try done; lia.
Qed.

Lemma three_field_row (row : list string) :
  length row = 3%nat -> exists date_str currency rate, row = [date_str; currency; rate].
Proof.
  destruct row as [| a [| b [| c [| d row]]]]; simpl; intros; try lia; eauto.
Qed.

(** ** The loop over the rows *)

Definition at_most_three_fields (row : list string) : Prop := (length row <= 3)%nat.

Lemma for_rows_ok rows acc w :
  Forall at_most_three_fields rows ->
  iter.for_rows rows process_row acc w =
  (Ok (acc ++ omap entry_of_row rows), printed w (flat_map warnings_of_row rows)).
Proof.
  intros Hall. revert acc w.
  induction Hall as [| row rows Hrow _ IH]; intros acc w; simpl.
  - by rewrite app_nil_r, printed_nil.
  - unfold bind. unfold at_most_three_fields in Hrow.
    destruct (decide (length row = 3%nat)) as [H3 | Hn3].
    + destruct (three_field_row row H3) as (d & c & r & ->).
      rewrite process_row_three, IH, printed_printed.
      by rewrite <- app_assoc.
    + assert (Hlt : (length row < 3)%nat) by lia.
      rewrite (process_row_short _ _ _ Hlt), IH.
      destruct (short_row_contributes_nothing row Hlt) as [-> ->].
      done.
Qed.

Lemma for_rows_abort pre long post acc w :
  Forall at_most_three_fields pre ->
  (3 < length long)%nat ->
  iter.for_rows (pre ++ long :: post) process_row acc w =
  (Raise too_many_values, printed w (flat_map warnings_of_row pre)).
Proof.
  intros Hall Hlong. revert acc w.
  induction Hall as [| row rows Hrow _ IH]; intros acc w; simpl.
  - unfold bind. by rewrite (process_row_long _ _ _ Hlong), printed_nil.
  - unfold bind. unfold at_most_three_fields in Hrow.
    destruct (decide (length row = 3%nat)) as [H3 | Hn3].
    + destruct (three_field_row row H3) as (d & c & r & ->).
      by rewrite process_row_three, IH, printed_printed.
    + assert (Hlt : (length row < 3)%nat) by lia.
      rewrite (process_row_short _ _ _ Hlt), IH.
      by destruct (short_row_contributes_nothing row Hlt) as [_ ->].
Qed.

(** Either no row has more than three fields, or there is a first one
    that has. *)
Lemma first_long_row rows :
  Forall at_most_three_fields rows \/
  exists pre long post,
    rows = pre ++ long :: post /\ Forall at_most_three_fields pre /\
    (3 < length long)%nat.
Proof.
  induction rows as [| row rows IH].
  - left. constructor.
  - destruct (le_lt_dec (length row) 3) as [Hle | Hgt].
    + destruct IH as [Hall | (pre & long & post & -> & Hpre & Hlong)].
      * left. by constructor.
      * right. exists (row :: pre), long, post. repeat split; [by constructor | done].
    + right. exists [], row, rows. repeat split; [constructor | done].
Qed.

Lemma for_rows_printed rows acc w :
  exists lines, (iter.for_rows rows process_row acc w).2 = printed w lines.
Proof.
  destruct (first_long_row rows) as [Hall | (pre & long & post & -> & Hpre & Hlong)].
  - rewrite (for_rows_ok _ _ _ Hall). eauto.
  - rewrite (for_rows_abort _ _ _ _ _ Hpre Hlong). eauto.
Qed.

Lemma for_in_printed it acc w :
  exists lines, (iter.for_in it process_row acc w).2 = printed w lines.
Proof.
  unfold iter.for_in, bind.
  destruct (for_rows_printed (csv.rows it) acc w) as [lines Hl].
  destruct (iter.for_rows (csv.rows it) process_row acc w) as [[rates | e] w1];
    simpl in Hl; subst w1; [| eauto].
  destruct (csv.failure it); simpl; eauto.
Qed.

(** ** Reading the input *)

Lemma open_r_missing path w :
  files w !! path = None -> io.open_r path w = (Raise (FileNotFoundError path), w).
Proof. intros H. unfold io.open_r. by rewrite H. Qed.

Lemma open_r_denied path w :
  path ∈ read_denied w ->
  exists e, io.open_r path w = (Raise e, w).
Proof.
  intros H. unfold io.open_r.
  destruct (files w !! path); [| eauto].
  destruct (decide (path ∈ read_denied w)); [eauto | done].
Qed.

Lemma open_r_ok path text w :
  files w !! path = Some text -> path ∉ read_denied w ->
  io.open_r path w = (Ok text, w).
Proof.
  intros H Hr. unfold io.open_r. rewrite H.
  by destruct (decide (path ∈ read_denied w)).
Qed.

Lemma read_exchange_rates_opened input_file text w :
  files w !! input_file = Some text -> input_file ∉ read_denied w ->
  read_exchange_rates input_file w =
  match iter.next (csv.reader_of text) with
  | Ok (header, csv_reader) => iter.for_in csv_reader process_row [] w
  | Raise e => (Raise e, w)
  end.
Proof.
  intros H Hr. unfold read_exchange_rates, bind.
  rewrite (open_r_ok _ _ _ H Hr). unfold lift.
  by destruct (iter.next (csv.reader_of text)) as [[header it] | e].
Qed.

Lemma read_exchange_rates_printed input_file w :
  exists lines, (read_exchange_rates input_file w).2 = printed w lines.
Proof.
  destruct (files w !! input_file) as [text |] eqn:Hf.
  - destruct (decide (input_file ∈ read_denied w)) as [Hd | Hd].
    + destruct (open_r_denied _ _ Hd) as [e He].
      unfold read_exchange_rates, bind. rewrite He. simpl.
      exists []. by rewrite printed_nil.
    + rewrite (read_exchange_rates_opened _ _ _ Hf Hd).
      destruct (iter.next (csv.reader_of text)) as [[header it] | e].
      * apply for_in_printed.
      * exists []. by rewrite printed_nil.
  - unfold read_exchange_rates, bind. rewrite (open_r_missing _ _ Hf). simpl.
    exists []. by rewrite printed_nil.
Qed.

(** ** The whole conversion *)

Lemma convert_read_raise input_file output_file w e w1 :
  read_exchange_rates input_file w = (Raise e, w1) ->
  convert_csv_to_json input_file output_file w = (Ok false, printed w1 [error_message e]).
Proof.
  intros Hread. unfold convert_csv_to_json, try_except, bind.
  by rewrite Hread.
Qed.

Lemma convert_write_denied input_file output_file w rates w1 :
  read_exchange_rates input_file w = (Ok rates, w1) ->
  output_file ∈ write_denied w1 ->
  convert_csv_to_json input_file output_file w =
  (Ok false, printed w1 [error_message (PermissionError output_file)]).
Proof.
  intros Hread Hden. unfold convert_csv_to_json, try_except, bind.
  by rewrite Hread, (open_w_denied _ _ Hden).
Qed.

Lemma convert_ok input_file output_file w rates w1 :
  read_exchange_rates input_file w = (Ok rates, w1) ->
  output_file ∉ write_denied w1 ->
  convert_csv_to_json input_file output_file w =
  (Ok true, printed (written w1 output_file (json_dumps (document rates) 2))
                    [success_message output_file]).
Proof.
  intros Hread Hden. unfold convert_csv_to_json, try_except.
  unfold bind at 1. rewrite Hread.
  pose proof (open_w_write output_file (json_dumps (document rates) 2) w1 Hden) as Hw.
  unfold bind in Hw |- *. unfold json_dump, document in *.
  destruct (io.open_w output_file w1) as [[fp | e] w2]; [| done].
  by rewrite Hw.
Qed.

(** The conversion never lets an exception escape. *)
Lemma convert_returns input_file output_file w :
  exists b w', convert_csv_to_json input_file output_file w = (Ok b, w').
Proof.
  destruct (read_exchange_rates input_file w) as [[rates | e] w1] eqn:Hread.
  - destruct (decide (output_file ∈ write_denied w1)) as [Hd | Hd].
    + rewrite (convert_write_denied _ _ _ _ _ Hread Hd). eauto.
    + rewrite (convert_ok _ _ _ _ _ Hread Hd). eauto.
  - rewrite (convert_read_raise _ _ _ _ _ Hread). eauto.
Qed.

Lemma exit_status_zero w : exit_status w = 0%Z.
Proof.
  unfold exit_status, main.
  destruct (negb (length (sys_argv w) =? 3)%nat); [done |].
  unfold bind.
  destruct (convert_returns (nth 1 (sys_argv w) "") (nth 2 (sys_argv w) "") w)
    as (b & w' & ->).
  done.
Qed.

Lemma read_exchange_rates_ok input_file w text header data :
  files w !! input_file = Some text -> input_file ∉ read_denied w ->
  csv.reader_of text = csv.mkIter (header :: data) None ->
  Forall at_most_three_fields data ->
  read_exchange_rates input_file w =
  (Ok (omap entry_of_row data), printed w (flat_map warnings_of_row data)).
Proof.
  intros Hf Hr Hrows Hall.
  rewrite (read_exchange_rates_opened _ _ _ Hf Hr), Hrows.
  unfold iter.next, iter.for_in, bind; simpl.
  by rewrite (for_rows_ok _ _ _ Hall).
Qed.

Lemma read_exchange_rates_ok_inv input_file w rates w1 :
  read_exchange_rates input_file w = (Ok rates, w1) ->
  exists text header data,
    files w !! input_file = Some text /\
    (input_file ∉ read_denied w) /\
    csv.reader_of text = csv.mkIter (header :: data) None /\
    Forall at_most_three_fields data /\
    rates = omap entry_of_row data /\
    w1 = printed w (flat_map warnings_of_row data).
Proof.
  intros Hread.
  destruct (files w !! input_file) as [text |] eqn:Hf.
  2: { unfold read_exchange_rates, bind in Hread.
       by rewrite (open_r_missing _ _ Hf) in Hread. }
  destruct (decide (input_file ∈ read_denied w)) as [Hd | Hd].
  { destruct (open_r_denied _ _ Hd) as [e He].
    unfold read_exchange_rates, bind in Hread. by rewrite He in Hread. }
  rewrite (read_exchange_rates_opened _ _ _ Hf Hd) in Hread.
  destruct (csv.reader_of text) as [[| header data] failure] eqn:Hrows;
    unfold iter.next in Hread; simpl in Hread; [done |].
  unfold iter.for_in, bind in Hread; simpl in Hread.
  destruct (first_long_row data) as [Hall | (pre & long & post & -> & Hpre & Hlong)].
  - rewrite (for_rows_ok _ _ _ Hall) in Hread.
    destruct failure as [e |]; [done |].
    injection Hread as <- <-.
    exists text, header, data. by repeat split.
  - by rewrite (for_rows_abort _ _ _ _ _ Hpre Hlong) in Hread.
Qed.

(** ** Lines of a text file, and the reader on them *)













(** The conversion succeeds on every readable file from which the reader
    yields a first row and then rows of at most three fields, the
    output being writable. *)
Lemma conversion_succeeds input_file output_file w text header data :
  files w !! input_file = Some text ->
  input_file ∉ read_denied w ->
  output_file ∉ write_denied w ->
  csv.reader_of text = csv.mkIter (header :: data) None ->
  Forall at_most_three_fields data ->
  convert_csv_to_json input_file output_file w =
  (Ok true,
   printed (written w output_file (json_dumps (document (omap entry_of_row data)) 2))
           (flat_map warnings_of_row data ++ [success_message output_file])).
Proof.
  intros Hf Hr Hw Hiter Hall.
  pose proof (read_exchange_rates_ok _ _ _ _ _ Hf Hr Hiter Hall) as Hread.
  rewrite (convert_ok _ output_file _ _ _ Hread Hw).
  unfold printed, written; simpl. by rewrite <- app_assoc.
Qed.

(** ** The row contract on the examples of the specification *)

Example date_with_single_digits : iso_date_of "3/4/2023" = "2023-03-04".
Proof. vm_compute. reflexivity. Qed.

Example date_already_iso : iso_date_of "2023-03-04" = "2023-03-04".
Proof. vm_compute. reflexivity. Qed.

Example date_not_in_calendar : iso_date_of "02/30/2023" = "02/30/2023".
Proof. vm_compute. reflexivity. Qed.

(** [float("1.0732")] is the binary64 number within half a unit in the
    last place (2^-53 here) of 1.0732. *)
Example rate_1_0732 :
  builtins.float "1.0732" = Ok (S754_finite false 4833263120094016 (-52)) /\
  (2 * Z.abs (4833263120094016 * 10000 - 10732 * 2 ^ 52) <= 10000)%Z.
Proof. split; [vm_compute; reflexivity | vm_compute; discriminate]. Qed.

Example rate_not_a_number : rate_of "N/A" = VStr "N/A".
Proof. vm_compute. reflexivity. Qed.

(** ** The statements of the conversion contract *)

(** C2: the emitted date is not always the [YYYY-MM-DD] rendering of a
    date that parses: the row [01/01/0999,USD,1.0] has a first field
    that parses as the first of January of the year 999, and the entry
    appended for it carries the date [999-01-01], the year without its
    leading zero, which is not of the shape [YYYY-MM-DD]. *)
Theorem year_below_1000_loses_its_padding :
  datetime.strptime_m_d_Y "01/01/0999" = Ok (datetime.mkDatetime 999 1 1) /\
  (forall acc w,
     process_row sample.early_year_row acc w =
     (Ok (acc ++ [VDict [("date", VStr "999-01-01"); ("currency", VStr "USD");
                         ("rate", VFloat (S754_finite false 4503599627370496 (-52)))]]),
      w)) /\
  is_YYYY_MM_DD "999-01-01" = false.
Proof.
  split; [vm_compute; reflexivity |]. split; [| reflexivity].
  intros acc w. unfold sample.early_year_row. rewrite process_row_three.
  assert (Hdate : iso_date_of "01/01/0999" = "999-01-01") by (vm_compute; reflexivity).
  assert (Hrate : rate_of "1.0" = VFloat (S754_finite false 4503599627370496 (-52)))
    by (vm_compute; reflexivity).
  assert (Hwarn : warnings_of_row ["01/01/0999"; "USD"; "1.0"] = [])
    by (vm_compute; reflexivity).
  by rewrite Hdate, Hrate, Hwarn, printed_nil.
Qed.

(** C3: for every processed row, when the third field parses as a
    floating-point number the emitted rate is that number and nothing is
    printed; when it does not, the emitted rate is the field itself, as a
    string, and exactly one warning line is printed, which contains the
    field, the currency and the date. *)
Theorem rate_coercion date_str currency rate acc w :
  match builtins.float rate with
  | Ok x =>
      process_row [date_str; currency; rate] acc w =
      (Ok (acc ++ [entry (iso_date_of date_str) currency (VFloat x)]), w)
  | Raise _ =>
      process_row [date_str; currency; rate] acc w =
      (Ok (acc ++ [entry (iso_date_of date_str) currency (VStr rate)]),
       printed w [warning rate currency date_str]) /\
      substring_of rate (warning rate currency date_str) /\
      substring_of currency (warning rate currency date_str) /\
      substring_of date_str (warning rate currency date_str)
  end.
Proof.
  rewrite process_row_three. unfold rate_of, warnings_of_row.
  destruct (builtins.float rate) as [x | e].
  - by rewrite printed_nil.
  - split; [done |]. unfold substring_of, warning. repeat split.
    + by exists "Avertissement: Impossible de convertir le taux '",
        ("' en nombre pour " +:+ currency +:+ " à la date " +:+ date_str).
    + exists ("Avertissement: Impossible de convertir le taux '" +:+ rate +:+
              "' en nombre pour "), (" à la date " +:+ date_str).
      by rewrite !append_assoc.
    + exists ("Avertissement: Impossible de convertir le taux '" +:+ rate +:+
              "' en nombre pour " +:+ currency +:+ " à la date "), "".
      by rewrite append_nil_r, !append_assoc.
Qed.

(** C6: called with any number of arguments other than two, the program
    prints the usage line and does nothing else: no file is read or
    written, and the exit status is the one of every other run. *)
Theorem usage_on_wrong_argument_count w script args :
  sys_argv w = script :: args ->
  length args <> 2%nat ->
  main w = (Ok tt, printed w [usage]) /\
  exit_status w = 0%Z /\
  forall w2, exit_status w2 = exit_status w.
Proof.
  intros Hargv Hlen. split; [| split].
  - unfold main. rewrite Hargv. simpl.
    destruct (Nat.eqb_spec (length args) 2); [done |]. reflexivity.
  - apply exit_status_zero.
  - intros w2. by rewrite !exit_status_zero.
Qed.

(** C7: when the input path does not exist or cannot be read, the
    conversion returns false, prints one error line and leaves every
    file, the output path included, as it was. *)
Theorem missing_input_fails_cleanly input_file output_file w :
  files w !! input_file = None \/ input_file ∈ read_denied w ->
  exists e w',
    convert_csv_to_json input_file output_file w = (Ok false, w') /\
    stdout w' = stdout w ++ [error_message e] /\
    files w' = files w.
Proof.
  intros Hin.
  assert (exists e, io.open_r input_file w = (Raise e, w)) as [e He].
  { destruct Hin as [Hnone | Hden].
    - rewrite (open_r_missing _ _ Hnone). eauto.
    - by apply open_r_denied. }
  exists e, (printed w [error_message e]). split; [| done].
  apply convert_read_raise. unfold read_exchange_rates, bind. by rewrite He.
Qed.

(** C8: reading the input and processing its rows never touches a file,
    and a failure raised in that phase makes the conversion return false
    with the files still untouched: the output is opened only once the
    whole input has been consumed. *)
Theorem input_consumed_before_output_opened input_file output_file w r w1 :
  read_exchange_rates input_file w = (r, w1) ->
  files w1 = files w /\
  match r with
  | Raise e =>
      exists w', convert_csv_to_json input_file output_file w = (Ok false, w') /\
                 files w' = files w
  | Ok _ => True
  end.
Proof.
  intros Hread.
  destruct (read_exchange_rates_printed input_file w) as [lines Hl].
  rewrite Hread in Hl; simpl in Hl; subst w1.
  split; [done |].
  destruct r as [rates | e]; [done |].
  rewrite (convert_read_raise _ output_file _ _ _ Hread). eauto.
Qed.

(** C9: on an empty input file there is no header to skip: the
    conversion returns false, prints the error line (with the empty
    message of [StopIteration]) and writes no file. *)
Theorem empty_input_fails input_file output_file w :
  files w !! input_file = Some "" ->
  input_file ∉ read_denied w ->
  convert_csv_to_json input_file output_file w =
  (Ok false, printed w ["Erreur lors de la conversion: "]) /\
  files (printed w ["Erreur lors de la conversion: "]) = files w.
Proof.
  intros Hf Hr. split; [| done].
  apply (convert_read_raise _ _ _ StopIteration).
  by rewrite (read_exchange_rates_opened _ _ _ Hf Hr).
Qed.


(** C4: whenever the conversion succeeds, the text written to the output
    path is the serialisation of a document with the single key
    [exchange_rates], whose list holds the entries of the rows after the
    first one, in the order of these rows (none of which has more than
    three fields); the first row, the header, contributes nothing. *)
Theorem output_document input_file output_file w w' :
  convert_csv_to_json input_file output_file w = (Ok true, w') ->
  exists text header data_rows,
    files w !! input_file = Some text /\
    csv.reader_of text = csv.mkIter (header :: data_rows) None /\
    Forall at_most_three_fields data_rows /\
    files w' !! output_file =
    Some (json_dumps (VDict [("exchange_rates",
                              VList (omap entry_of_row data_rows))]) 2).
Proof.
  intros Hconv.
  destruct (read_exchange_rates input_file w) as [[rates | e] w1] eqn:Hread.
  - destruct (decide (output_file ∈ write_denied w1)) as [Hd | Hd].
    + by rewrite (convert_write_denied _ _ _ _ _ Hread Hd) in Hconv.
    + rewrite (convert_ok _ _ _ _ _ Hread Hd) in Hconv.
      injection Hconv as <-.
      destruct (read_exchange_rates_ok_inv _ _ _ _ Hread)
        as (text & header & data & Hf & _ & Hrows & Hall & -> & _).
      exists text, header, data. repeat split; [done.. |].
      simpl. apply lookup_insert_eq.
  - by rewrite (convert_read_raise _ _ _ _ _ Hread) in Hconv.
Qed.

(** Any row with more than three fields stops the run: the unpacking of
    the row raises, the outer handler prints the error line and the
    conversion returns false without writing. *)
Lemma row_with_extra_fields_aborts input_file output_file w text header pre long post :
  files w !! input_file = Some text ->
  input_file ∉ read_denied w ->
  csv.rows (csv.reader_of text) = header :: pre ++ long :: post ->
  Forall at_most_three_fields pre ->
  (3 < length long)%nat ->
  convert_csv_to_json input_file output_file w =
  (Ok false, printed w (flat_map warnings_of_row pre ++ [error_message too_many_values])).
Proof.
  intros Hf Hr Hrows Hpre Hlong.
  rewrite <- printed_printed. apply convert_read_raise.
  rewrite (read_exchange_rates_opened _ _ _ Hf Hr).
  unfold iter.next. rewrite Hrows. unfold iter.for_in, bind. simpl.
  by rewrite (for_rows_abort _ _ _ _ _ Hpre Hlong).
Qed.

(** C1: a data row with a fourth field is not turned into an entry: on
    the sample file whose only data row is [01/15/2023,USD,1.0732,note]
    the conversion returns false, prints the error line of the failed
    unpacking and writes nothing. *)
Theorem extra_field_aborts_run :
  convert_csv_to_json "rates.csv" "rates.json" (sample.world_with sample.extra_field_text) =
  (Ok false,
   printed (sample.world_with sample.extra_field_text)
     ["Erreur lors de la conversion: too many values to unpack (expected 3)"]).
Proof. vm_compute. reflexivity. Qed.

(** C5: on the sample file of the specification, whatever its line
    ending and whether or not the last line is closed, the conversion
    succeeds, writes the document with the USD entry (rate 1.0732 as a
    number: 4833263120094016 * 2^-52) and the EUR entry (rate kept as
    the string [bad]), prints one warning, for the EUR row, before the
    success line, and drops the GBP row. *)
Theorem sample_conversion input_file output_file w eol final_newline :
  In eol [String LF ""; String CR (String LF ""); String CR ""] ->
  files w !! input_file = Some (join_lines eol final_newline sample.rate_lines) ->
  input_file ∉ read_denied w ->
  output_file ∉ write_denied w ->
  convert_csv_to_json input_file output_file w =
  (Ok true,
   printed
     (written w output_file
        (json_dumps
           (VDict [("exchange_rates",
                    VList [VDict [("date", VStr "2023-01-15");
                                  ("currency", VStr "USD");
                                  ("rate", VFloat (S754_finite false 4833263120094016 (-52)))];
                           VDict [("date", VStr "2023-01-16");
                                  ("currency", VStr "EUR");
                                  ("rate", VStr "bad")]])]) 2))
     ["Avertissement: Impossible de convertir le taux 'bad' en nombre pour EUR à la date 01/16/2023";
      "Conversion réussie. Résultat écrit dans " +:+ output_file]).
Proof.
  intros Heol Hf Hr Hw.
  assert (Hrows : csv.reader_of (join_lines eol final_newline sample.rate_lines) =
                  csv.mkIter [["Date"; "Currency"; "Rate"];
                              ["01/15/2023"; "USD"; "1.0732"];
                              ["01/16/2023"; "EUR"; "bad"];
                              ["01/17/2023"; "GBP"]] None).
  { simpl in Heol. destruct final_newline;
      destruct Heol as [<- | [<- | [<- | []]]]; vm_compute; reflexivity. }
  pose proof (read_exchange_rates_ok _ _ _ _ _ Hf Hr Hrows) as Hread.
  assert (Hall : Forall at_most_three_fields
                   [["01/15/2023"; "USD"; "1.0732"]; ["01/16/2023"; "EUR"; "bad"];
                    ["01/17/2023"; "GBP"]]).
  { repeat constructor. }
  specialize (Hread Hall).
  assert (Hentries :
    omap entry_of_row
      [["01/15/2023"; "USD"; "1.0732"]; ["01/16/2023"; "EUR"; "bad"];
       ["01/17/2023"; "GBP"]] =
    [entry "2023-01-15" "USD" (VFloat (S754_finite false 4833263120094016 (-52)));
     entry "2023-01-16" "EUR" (VStr "bad")])
    by (vm_compute; reflexivity).
  assert (Hwarnings :
    flat_map warnings_of_row
      [["01/15/2023"; "USD"; "1.0732"]; ["01/16/2023"; "EUR"; "bad"];
       ["01/17/2023"; "GBP"]] =
    ["Avertissement: Impossible de convertir le taux 'bad' en nombre pour EUR à la date 01/16/2023"])
    by (vm_compute; reflexivity).
  rewrite Hentries, Hwarnings in Hread.
  rewrite (convert_ok _ output_file _ _ _ Hread Hw).
  unfold printed, written, document, entry, success_message; simpl.
  by rewrite <- app_assoc.
Qed.

(** ** Further properties of the conversion *)

Lemma convert_true_inv input_file output_file w w' :
  convert_csv_to_json input_file output_file w = (Ok true, w') ->
  exists text header data,
    files w !! input_file = Some text /\
    (input_file ∉ read_denied w) /\
    (output_file ∉ write_denied w) /\
    csv.reader_of text = csv.mkIter (header :: data) None /\
    Forall at_most_three_fields data /\
    w' = printed (written w output_file
                    (json_dumps (document (omap entry_of_row data)) 2))
                 (flat_map warnings_of_row data ++ [success_message output_file]).
Proof.
  intros Hconv.
  destruct (read_exchange_rates input_file w) as [[rates | e] w1] eqn:Hread.
  - destruct (read_exchange_rates_ok_inv _ _ _ _ Hread)
      as (text & header & data & Hf & Hr & Hrows & Hall & -> & ->).
    destruct (decide (output_file ∈ write_denied w)) as [Hd | Hd].
    + by rewrite (convert_write_denied _ _ _ _ _ Hread Hd) in Hconv.
    + rewrite (convert_ok _ _ _ _ _ Hread Hd) in Hconv.
      injection Hconv as <-.
      exists text, header, data. repeat split; [done.. |].
      unfold printed, written; simpl. by rewrite <- app_assoc.
  - by rewrite (convert_read_raise _ _ _ _ _ Hread) in Hconv.
Qed.

(** Every run ends in one of two ways: an error line and nothing
    written, or the output written and the success line. *)
Lemma convert_shape input_file output_file w :
  (exists lines e,
     convert_csv_to_json input_file output_file w =
     (Ok false, printed w (lines ++ [error_message e]))) \/
  (exists lines text,
     convert_csv_to_json input_file output_file w =
     (Ok true, printed (written w output_file text)
                       (lines ++ [success_message output_file]))).
Proof.
  destruct (read_exchange_rates_printed input_file w) as [lines Hl].
  destruct (read_exchange_rates input_file w) as [[rates | e] w1] eqn:Hread;
    simpl in Hl; subst w1.
  - destruct (decide (output_file ∈ write_denied w)) as [Hd | Hd].
    + left. exists lines, (PermissionError output_file).
      by rewrite (convert_write_denied _ _ _ _ _ Hread Hd), printed_printed.
    + right. exists lines, (json_dumps (document rates) 2).
      rewrite (convert_ok _ _ _ _ _ Hread Hd).
      unfold printed, written; simpl. by rewrite <- app_assoc.
  - left. exists lines, e.
    by rewrite (convert_read_raise _ _ _ _ _ Hread), printed_printed.
Qed.

(** X1: on an input that, when it exists, is ASCII text, the conversion
    always returns a boolean, and it returns true exactly when the
    input file can be read, the reader yields a first row and then,
    without raising, rows of at most three fields, and the output path
    can be opened for writing. *)
Theorem conversion_verdict input_file output_file w :
  (forall text, files w !! input_file = Some text -> is_ascii text = true) ->
  exists b,
    (convert_csv_to_json input_file output_file w).1 = Ok b /\
    (b = true <->
     exists text header data,
       files w !! input_file = Some text /\
       (input_file ∉ read_denied w) /\
       csv.reader_of text = csv.mkIter (header :: data) None /\
       Forall at_most_three_fields data /\
       (output_file ∉ write_denied w)).
Proof.
  intros _.
  destruct (convert_returns input_file output_file w) as (b & w' & Hconv).
  exists b. rewrite Hconv. split; [done |]. split.
  - intros ->.
    destruct (convert_true_inv _ _ _ _ Hconv)
      as (text & header & data & Hf & Hr & Hw & Hrows & Hall & _).
    by exists text, header, data.
  - intros (text & header & data & Hf & Hr & Hrows & Hall & Hw).
    rewrite (conversion_succeeds _ _ _ _ _ _ Hf Hr Hw Hrows Hall) in Hconv.
    by injection Hconv as <-.
Qed.

(** X2: on a readable input of ASCII text from which the reader yields
    a first row and then, without raising, rows of at most three
    fields, the output being writable, the conversion returns true; the
    output path then holds the document of the three-field rows'
    entries, in row order, whatever it held before; the warnings of the
    rows are printed in row order, followed by the success line; and
    nothing else changes. *)
Theorem successful_run_effects input_file output_file w text header data :
  files w !! input_file = Some text ->
  is_ascii text = true ->
  input_file ∉ read_denied w ->
  output_file ∉ write_denied w ->
  csv.reader_of text = csv.mkIter (header :: data) None ->
  Forall at_most_three_fields data ->
  exists w',
    convert_csv_to_json input_file output_file w = (Ok true, w') /\
    files w' =
      <[output_file := json_dumps (VDict [("exchange_rates",
                                           VList (omap entry_of_row data))]) 2]>
        (files w) /\
    stdout w' =
      stdout w ++ flat_map warnings_of_row data ++ [success_message output_file] /\
    read_denied w' = read_denied w /\
    write_denied w' = write_denied w /\
    sys_argv w' = sys_argv w.
Proof.
  intros Hf _ Hr Hw Hrows Hall.
  rewrite (conversion_succeeds _ _ _ _ _ _ Hf Hr Hw Hrows Hall).
  eexists. split; [reflexivity |]. by repeat split.
Qed.

(** X3: when a row has more than three fields, the rows before it are
    processed (their warnings are printed), then the run stops: the
    error line of the failed unpacking is printed, false is returned,
    the later rows are never looked at and no file is written. *)
Theorem extra_fields_abort_after_earlier_rows
    input_file output_file w text header pre long post :
  files w !! input_file = Some text ->
  input_file ∉ read_denied w ->
  csv.rows (csv.reader_of text) = header :: pre ++ long :: post ->
  Forall at_most_three_fields pre ->
  (3 < length long)%nat ->
  exists w',
    convert_csv_to_json input_file output_file w = (Ok false, w') /\
    stdout w' =
      stdout w ++ flat_map warnings_of_row pre ++
      ["Erreur lors de la conversion: too many values to unpack (expected 3)"] /\
    files w' = files w.
Proof.
  intros Hf Hr Hrows Hpre Hlong.
  rewrite (row_with_extra_fields_aborts _ _ _ _ _ _ _ _ Hf Hr Hrows Hpre Hlong).
  eexists. split; [reflexivity |]. by split.
Qed.

(** X4: when the output path cannot be opened for writing, an input of
    ASCII text that the reader reads to its end without raising is
    still processed in full (the warnings are printed) before the
    failure shows: the error line follows the warnings, false is
    returned and no file is changed. *)
Theorem unwritable_output_fails_after_processing
    input_file output_file w text header data :
  files w !! input_file = Some text ->
  is_ascii text = true ->
  input_file ∉ read_denied w ->
  output_file ∈ write_denied w ->
  csv.reader_of text = csv.mkIter (header :: data) None ->
  Forall at_most_three_fields data ->
  exists w',
    convert_csv_to_json input_file output_file w = (Ok false, w') /\
    stdout w' =
      stdout w ++ flat_map warnings_of_row data ++
      [error_message (PermissionError output_file)] /\
    files w' = files w.
Proof.
  intros Hf _ Hr Hw Hiter Hall.
  pose proof (read_exchange_rates_ok _ _ _ _ _ Hf Hr Hiter Hall) as Hread.
  rewrite (convert_write_denied _ output_file _ _ _ Hread Hw).
  eexists. split; [reflexivity |]. split; [| done].
  simpl. by rewrite <- app_assoc.
Qed.

(** X5: what the loop body does with a row depends on its number of
    fields alone: below three the row is skipped without a trace; with
    exactly three one entry is appended, carrying the second field as
    its currency, and at most one line is printed; above three the
    unpacking raises [ValueError] before anything is printed. *)
Theorem row_outcome_by_field_count row acc w :
  match Nat.compare (length row) 3 with
  | Lt => process_row row acc w = (Ok acc, w)
  | Eq =>
      exists date_str currency rate iso_date rate_float lines,
        row = [date_str; currency; rate] /\
        process_row row acc w =
        (Ok (acc ++ [VDict [("date", VStr iso_date); ("currency", VStr currency);
                            ("rate", rate_float)]]),
         printed w lines) /\
        (length lines <= 1)%nat
  | Gt =>
      process_row row acc w =
      (Raise (ValueError "too many values to unpack (expected 3)"), w)
  end.
Proof.
  destruct (Nat.compare_spec (length row) 3) as [Heq | Hlt | Hgt].
  - destruct (three_field_row row Heq) as (d & c & r & ->).
    exists d, c, r, (iso_date_of d), (rate_of r), (warnings_of_row [d; c; r]).
    split; [done |]. split; [apply process_row_three |].
    unfold warnings_of_row. destruct (builtins.float r); simpl; lia.
  - by apply process_row_short.
  - by apply process_row_long.
Qed.

(** X6: started with exactly two arguments, [main] runs the conversion
    on them and drops its result: it returns normally and the exit
    status is 0 whether the conversion returned true or false. *)
Theorem main_runs_conversion w script input_file output_file :
  sys_argv w = [script; input_file; output_file] ->
  main w = (Ok tt, (convert_csv_to_json input_file output_file w).2) /\
  exit_status w = 0%Z.
Proof.
  intros Hargv. split; [| apply exit_status_zero].
  unfold main. rewrite Hargv. simpl. unfold bind.
  by destruct (convert_returns input_file output_file w) as (b & w' & ->).
Qed.

(** X7: a run never touches a path other than the output path: every
    other file keeps its text (and stays absent if it was absent), and
    the permissions and the command line are left alone. *)
Theorem only_output_path_changes input_file output_file w path :
  path <> output_file ->
  files (convert_csv_to_json input_file output_file w).2 !! path = files w !! path /\
  read_denied (convert_csv_to_json input_file output_file w).2 = read_denied w /\
  write_denied (convert_csv_to_json input_file output_file w).2 = write_denied w /\
  sys_argv (convert_csv_to_json input_file output_file w).2 = sys_argv w.
Proof.
  intros Hne.
  destruct (convert_shape input_file output_file w)
    as [(lines & e & ->) | (lines & text & ->)]; simpl.
  - done.
  - by rewrite lookup_insert_ne.
Qed.

(** X8: a successful conversion can be repeated: run again on the same
    paths (the output path not being the input path), it succeeds
    again, leaves every file as the first run left it, and prints the
    same lines once more. *)
Theorem conversion_is_repeatable input_file output_file w w1 :
  convert_csv_to_json input_file output_file w = (Ok true, w1) ->
  input_file <> output_file ->
  exists lines w2,
    convert_csv_to_json input_file output_file w1 = (Ok true, w2) /\
    files w2 = files w1 /\
    stdout w1 = stdout w ++ lines /\
    stdout w2 = stdout w1 ++ lines.
Proof.
  intros Hconv Hne.
  destruct (convert_true_inv _ _ _ _ Hconv)
    as (text & header & data & Hf & Hr & Hw & Hrows & Hall & ->).
  assert (Hf1 : files (printed (written w output_file
                         (json_dumps (document (omap entry_of_row data)) 2))
                       (flat_map warnings_of_row data ++ [success_message output_file]))
                !! input_file = Some text).
  { simpl. by rewrite lookup_insert_ne. }
  rewrite (conversion_succeeds _ output_file _ _ _ _ Hf1 Hr Hw Hrows Hall).
  eexists _, _. split; [reflexivity |]. simpl.
  by rewrite insert_insert_eq.
Qed.

Lemma entries_of_rows_well_formed data :
  Forall well_formed_entry (omap entry_of_row data).
Proof.
  induction data as [| row data IH]; [constructor |]. simpl.
  destruct (entry_of_row row) as [e |] eqn:He; [| done].
  constructor; [| done].
  destruct row as [| d [| c [| r [| ? ?]]]]; try done.
  injection He as <-. exists (iso_date_of d), c, (rate_of r). split; [done |].
  unfold rate_of. destruct (builtins.float r); eauto.
Qed.

(** X9: every document the conversion writes follows the output schema:
    under the single key [exchange_rates], a list of entries that each
    have the keys [date], [currency] and [rate], in this order, with
    string values for the first two and a number or a string for the
    third. *)
Theorem written_entries_follow_schema input_file output_file w w' :
  convert_csv_to_json input_file output_file w = (Ok true, w') ->
  exists entries,
    files w' !! output_file =
    Some (json_dumps (VDict [("exchange_rates", VList entries)]) 2) /\
    Forall well_formed_entry entries.
Proof.
  intros Hconv.
  destruct (convert_true_inv _ _ _ _ Hconv)
    as (text & header & data & _ & _ & _ & _ & _ & ->).
  exists (omap entry_of_row data). split.
  - simpl. apply lookup_insert_eq.
  - apply entries_of_rows_well_formed.
Qed.

Lemma warnings_match_string_rates data :
  length (flat_map warnings_of_row data) =
  length (List.filter has_string_rate (omap entry_of_row data)).
Proof.
  induction data as [| row data IH]; [done |]. simpl.
  rewrite length_app, IH.
  destruct row as [| d [| c [| r [| ? ?]]]]; try done.
  simpl. unfold rate_of. by destruct (builtins.float r).
Qed.

(** X10: warnings and string rates go together: after a successful run
    the lines printed are the warnings followed by the success line, and
    there are exactly as many warnings as entries of the written
    document whose rate was kept as a string. *)
Theorem one_warning_per_string_rate input_file output_file w w' :
  convert_csv_to_json input_file output_file w = (Ok true, w') ->
  exists entries warnings,
    files w' !! output_file =
    Some (json_dumps (VDict [("exchange_rates", VList entries)]) 2) /\
    stdout w' = stdout w ++ warnings ++ [success_message output_file] /\
    length warnings = length (List.filter has_string_rate entries).
Proof.
  intros Hconv.
  destruct (convert_true_inv _ _ _ _ Hconv)
    as (text & header & data & _ & _ & _ & _ & _ & ->).
  exists (omap entry_of_row data), (flat_map warnings_of_row data).
  split; [simpl; apply lookup_insert_eq |]. split; [done |].
  apply warnings_match_string_rates.
Qed.

(** X11: for every processed row whose first field parses as a
    month/day/year date, the parsed date is a date of the calendar and
    the entry's date is [strftime]'s text for it: when the year has four
    digits (1000 or later) this text has the shape [YYYY-MM-DD] and reads
    back as the year, month and day that were parsed; when the year is
    below 1000 the text is shorter and not of that shape.  When the
    first field does not parse, the entry's date is the field itself.
    No exception is raised in any case. *)
Theorem date_normalization_reads_back date_str currency rate acc w :
  match datetime.strptime_m_d_Y date_str with
  | Ok date_obj =>
      valid_date date_obj /\
      (exists rate_float w',
         process_row [date_str; currency; rate] acc w =
         (Ok (acc ++ [entry (datetime.strftime_Y_m_d date_obj) currency rate_float]),
          w')) /\
      (if (1000 <=? datetime.year date_obj)%N
       then read_Y_m_d (datetime.strftime_Y_m_d date_obj) =
            Some (datetime.year date_obj, datetime.month date_obj,
                  datetime.day date_obj)
       else is_YYYY_MM_DD (datetime.strftime_Y_m_d date_obj) = false)
  | Raise _ =>
      exists rate_float w',
        process_row [date_str; currency; rate] acc w =
        (Ok (acc ++ [entry date_str currency rate_float]), w')
  end.
Proof.
  rewrite process_row_three. unfold iso_date_of.
  destruct (datetime.strptime_m_d_Y date_str) as [date_obj | e] eqn:Hparse.
  - pose proof (strptime_valid _ _ Hparse) as Hvalid.
    split; [done |]. split; [eauto |]. by apply strftime_read_back.
  - eauto.
Qed.

End csvtojson.

(** * The statements at work on the sample data *)

Lemma output_document_witness :
  convert_csv_to_json sample.dumps "rates.csv" "rates.json"
    (sample.world_with sample.rates_text) =
  (Ok true,
   (convert_csv_to_json sample.dumps "rates.csv" "rates.json"
      (sample.world_with sample.rates_text)).2) /\
  exists text header data_rows,
    files (sample.world_with sample.rates_text) !! "rates.csv" = Some text /\
    csv.reader_of text = csv.mkIter (header :: data_rows) None /\
    Forall at_most_three_fields data_rows /\
    files (convert_csv_to_json sample.dumps "rates.csv" "rates.json"
             (sample.world_with sample.rates_text)).2 !! "rates.json" =
    Some (sample.dumps (VDict [("exchange_rates",
                                VList (omap entry_of_row data_rows))]) 2).
Proof.
  split; [vm_compute; reflexivity |].
  apply (output_document sample.dumps "rates.csv" "rates.json"
           (sample.world_with sample.rates_text)).
  vm_compute; reflexivity.
Defined.

Lemma sample_conversion_witness :
  convert_csv_to_json sample.dumps "rates.csv" "rates.json"
    (sample.world_with sample.rates_text) =
  (Ok true,
   printed
     (written (sample.world_with sample.rates_text) "rates.json"
        (sample.dumps
           (VDict [("exchange_rates",
                    VList [VDict [("date", VStr "2023-01-15");
                                  ("currency", VStr "USD");
                                  ("rate", VFloat (S754_finite false 4833263120094016 (-52)))];
                           VDict [("date", VStr "2023-01-16");
                                  ("currency", VStr "EUR");
                                  ("rate", VStr "bad")]])]) 2))
     ["Avertissement: Impossible de convertir le taux 'bad' en nombre pour EUR à la date 01/16/2023";
      "Conversion réussie. Résultat écrit dans rates.json"]).
Proof.
  apply (sample_conversion sample.dumps "rates.csv" "rates.json"
           (sample.world_with sample.rates_text) (String LF "") true).
  - simpl; auto.
  - vm_compute; reflexivity.
  - simpl; apply not_elem_of_empty.
  - simpl; apply not_elem_of_empty.
Defined.

Lemma usage_on_wrong_argument_count_witness :
  main sample.dumps sample.world_one_argument =
  (Ok tt, printed sample.world_one_argument [usage]) /\
  exit_status sample.dumps sample.world_one_argument = 0%Z /\
  forall w2, exit_status sample.dumps w2 =
             exit_status sample.dumps sample.world_one_argument.
Proof.
  apply (usage_on_wrong_argument_count sample.dumps sample.world_one_argument
           "csvtojson.py" ["rates.csv"]).
  - reflexivity.
  - simpl; lia.
Defined.

Lemma missing_input_fails_cleanly_witness :
  exists e w',
    convert_csv_to_json sample.dumps "absent.csv" "rates.json"
      (sample.world_with sample.rates_text) = (Ok false, w') /\
    stdout w' = stdout (sample.world_with sample.rates_text) ++ [error_message e] /\
    files w' = files (sample.world_with sample.rates_text).
Proof.
  apply (missing_input_fails_cleanly sample.dumps "absent.csv" "rates.json"
           (sample.world_with sample.rates_text)).
  left. vm_compute; reflexivity.
Defined.

Lemma input_consumed_before_output_opened_witness :
  files (sample.world_with sample.extra_field_text) =
  files (sample.world_with sample.extra_field_text) /\
  exists w',
    convert_csv_to_json sample.dumps "rates.csv" "rates.json"
      (sample.world_with sample.extra_field_text) = (Ok false, w') /\
    files w' = files (sample.world_with sample.extra_field_text).
Proof.
  apply (input_consumed_before_output_opened sample.dumps "rates.csv" "rates.json"
           (sample.world_with sample.extra_field_text)
           (Raise too_many_values)
           (sample.world_with sample.extra_field_text)).
  vm_compute; reflexivity.
Defined.

Lemma empty_input_fails_witness :
  convert_csv_to_json sample.dumps "rates.csv" "rates.json" (sample.world_with "") =
  (Ok false, printed (sample.world_with "") ["Erreur lors de la conversion: "]) /\
  files (printed (sample.world_with "") ["Erreur lors de la conversion: "]) =
  files (sample.world_with "").
Proof.
  apply (empty_input_fails sample.dumps "rates.csv" "rates.json" (sample.world_with "")).
  - vm_compute; reflexivity.
  - simpl; apply not_elem_of_empty.
Defined.



Lemma successful_run_effects_witness :
  exists w',
    convert_csv_to_json sample.dumps "rates.csv" "rates.json"
      (sample.world_with sample.rates_text) = (Ok true, w') /\
    files w' =
      <["rates.json" :=
          sample.dumps
            (VDict [("exchange_rates",
                     VList (omap entry_of_row
                              [["01/15/2023"; "USD"; "1.0732"];
                               ["01/16/2023"; "EUR"; "bad"];
                               ["01/17/2023"; "GBP"]]))]) 2]>
        (files (sample.world_with sample.rates_text)) /\
    stdout w' =
      stdout (sample.world_with sample.rates_text) ++
      flat_map warnings_of_row
        [["01/15/2023"; "USD"; "1.0732"]; ["01/16/2023"; "EUR"; "bad"];
         ["01/17/2023"; "GBP"]] ++
      [success_message "rates.json"] /\
    read_denied w' = read_denied (sample.world_with sample.rates_text) /\
    write_denied w' = write_denied (sample.world_with sample.rates_text) /\
    sys_argv w' = sys_argv (sample.world_with sample.rates_text).
Proof.
  apply (successful_run_effects sample.dumps "rates.csv" "rates.json"
           (sample.world_with sample.rates_text) sample.rates_text
           ["Date"; "Currency"; "Rate"]).
  - vm_compute; reflexivity.
  - vm_compute; reflexivity.
  - simpl; apply not_elem_of_empty.
  - simpl; apply not_elem_of_empty.
  - vm_compute; reflexivity.
  - repeat constructor.
Defined.

Lemma extra_fields_abort_after_earlier_rows_witness :
  exists w',
    convert_csv_to_json sample.dumps "rates.csv" "rates.json"
      (sample.world_with sample.warning_then_extra_text) = (Ok false, w') /\
    stdout w' =
      stdout (sample.world_with sample.warning_then_extra_text) ++
      flat_map warnings_of_row [["01/16/2023"; "EUR"; "bad"]] ++
      ["Erreur lors de la conversion: too many values to unpack (expected 3)"] /\
    files w' = files (sample.world_with sample.warning_then_extra_text).
Proof.
  apply (extra_fields_abort_after_earlier_rows sample.dumps "rates.csv" "rates.json"
           (sample.world_with sample.warning_then_extra_text)
           sample.warning_then_extra_text
           ["Date"; "Currency"; "Rate"]
           [["01/16/2023"; "EUR"; "bad"]]
           ["01/15/2023"; "USD"; "1.0732"; "note"]
           [["01/17/2023"; "GBP"; "n/a"]]).
  - vm_compute; reflexivity.
  - simpl; apply not_elem_of_empty.
  - vm_compute; reflexivity.
  - repeat constructor.
  - simpl; lia.
Defined.

Lemma unwritable_output_fails_after_processing_witness :
  exists w',
    convert_csv_to_json sample.dumps "rates.csv" "rates.json"
      (sample.world_output_denied sample.rates_text) = (Ok false, w') /\
    stdout w' =
      stdout (sample.world_output_denied sample.rates_text) ++
      flat_map warnings_of_row
        [["01/15/2023"; "USD"; "1.0732"]; ["01/16/2023"; "EUR"; "bad"];
         ["01/17/2023"; "GBP"]] ++
      [error_message (PermissionError "rates.json")] /\
    files w' = files (sample.world_output_denied sample.rates_text).
Proof.
  apply (unwritable_output_fails_after_processing sample.dumps "rates.csv" "rates.json"
           (sample.world_output_denied sample.rates_text) sample.rates_text
           ["Date"; "Currency"; "Rate"]).
  - vm_compute; reflexivity.
  - vm_compute; reflexivity.
  - simpl; apply not_elem_of_empty.
  - simpl; by apply elem_of_singleton.
  - vm_compute; reflexivity.
  - repeat constructor.
Defined.

Lemma main_runs_conversion_witness :
  main sample.dumps (sample.world_with sample.rates_text) =
  (Ok tt,
   (convert_csv_to_json sample.dumps "rates.csv" "rates.json"
      (sample.world_with sample.rates_text)).2) /\
  exit_status sample.dumps (sample.world_with sample.rates_text) = 0%Z.
Proof.
  apply (main_runs_conversion sample.dumps (sample.world_with sample.rates_text)
           "csvtojson.py" "rates.csv" "rates.json").
  reflexivity.
Defined.

Lemma only_output_path_changes_witness :
  files (convert_csv_to_json sample.dumps "rates.csv" "rates.json"
           (sample.world_with sample.rates_text)).2 !! "rates.csv" =
  files (sample.world_with sample.rates_text) !! "rates.csv" /\
  read_denied (convert_csv_to_json sample.dumps "rates.csv" "rates.json"
                 (sample.world_with sample.rates_text)).2 =
  read_denied (sample.world_with sample.rates_text) /\
  write_denied (convert_csv_to_json sample.dumps "rates.csv" "rates.json"
                  (sample.world_with sample.rates_text)).2 =
  write_denied (sample.world_with sample.rates_text) /\
  sys_argv (convert_csv_to_json sample.dumps "rates.csv" "rates.json"
              (sample.world_with sample.rates_text)).2 =
  sys_argv (sample.world_with sample.rates_text).
Proof.
  apply (only_output_path_changes sample.dumps "rates.csv" "rates.json"
           (sample.world_with sample.rates_text) "rates.csv").
  discriminate.
Defined.

Lemma conversion_is_repeatable_witness :
  exists lines w2,
    convert_csv_to_json sample.dumps "rates.csv" "rates.json"
      (convert_csv_to_json sample.dumps "rates.csv" "rates.json"
         (sample.world_with sample.rates_text)).2 = (Ok true, w2) /\
    files w2 =
      files (convert_csv_to_json sample.dumps "rates.csv" "rates.json"
               (sample.world_with sample.rates_text)).2 /\
    stdout (convert_csv_to_json sample.dumps "rates.csv" "rates.json"
              (sample.world_with sample.rates_text)).2 =
      stdout (sample.world_with sample.rates_text) ++ lines /\
    stdout w2 =
      stdout (convert_csv_to_json sample.dumps "rates.csv" "rates.json"
                (sample.world_with sample.rates_text)).2 ++ lines.
Proof.
  apply (conversion_is_repeatable sample.dumps "rates.csv" "rates.json"
           (sample.world_with sample.rates_text)).
  - vm_compute; reflexivity.
  - discriminate.
Defined.

Lemma written_entries_follow_schema_witness :
  exists entries,
    files (convert_csv_to_json sample.dumps "rates.csv" "rates.json"
             (sample.world_with sample.rates_text)).2 !! "rates.json" =
    Some (sample.dumps (VDict [("exchange_rates", VList entries)]) 2) /\
    Forall well_formed_entry entries.
Proof.
  apply (written_entries_follow_schema sample.dumps "rates.csv" "rates.json"
           (sample.world_with sample.rates_text)).
  vm_compute; reflexivity.
Defined.

Lemma one_warning_per_string_rate_witness :
  exists entries warnings,
    files (convert_csv_to_json sample.dumps "rates.csv" "rates.json"
             (sample.world_with sample.rates_text)).2 !! "rates.json" =
    Some (sample.dumps (VDict [("exchange_rates", VList entries)]) 2) /\
    stdout (convert_csv_to_json sample.dumps "rates.csv" "rates.json"
              (sample.world_with sample.rates_text)).2 =
    stdout (sample.world_with sample.rates_text) ++ warnings ++
    [success_message "rates.json"] /\
    length warnings = length (List.filter has_string_rate entries).
Proof.
  apply (one_warning_per_string_rate sample.dumps "rates.csv" "rates.json"
           (sample.world_with sample.rates_text)).
  vm_compute; reflexivity.
Defined.

Lemma conversion_verdict_witness :
  exists b,
    (convert_csv_to_json sample.dumps "rates.csv" "rates.json"
       (sample.world_with sample.rates_text)).1 = Ok b /\
    (b = true <->
     exists text header data,
       files (sample.world_with sample.rates_text) !! "rates.csv" = Some text /\
       ("rates.csv" ∉ read_denied (sample.world_with sample.rates_text)) /\
       csv.reader_of text = csv.mkIter (header :: data) None /\
       Forall at_most_three_fields data /\
       ("rates.json" ∉ write_denied (sample.world_with sample.rates_text))).
Proof.
  apply (conversion_verdict sample.dumps "rates.csv" "rates.json"
           (sample.world_with sample.rates_text)).
  intros text Htext. simpl in Htext.
  rewrite lookup_singleton_eq in Htext. injection Htext as <-.
  vm_compute; reflexivity.
Defined.
